(** * Whisper_field: the request handlers and the retention sweeper of app.py

    A shallow embedding of [app.py].  The two JSON files and the global
    [LAST_UPDATE_TIME] form the [world]; every Python function that touches
    them is a computation in the monad [M], which threads the world and
    carries Python exceptions ([try]/[except] is [try_except]).  Each
    handler is modelled as it runs on its own: the interleaving of the
    cleanup thread with a request is outside this development. *)

From Stdlib Require Import ZArith List String Ascii Bool Lia Permutation Sorted.
Import ListNotations.
Open Scope string_scope.
Open Scope Z_scope.
Open Scope list_scope.

Set Implicit Arguments.
Set Warnings "-register-all".

(** ** JSON values and Python truthiness *)

(** What [request.get_json()] hands to a handler.  Numbers are integers
    here: no handler does arithmetic on a number taken from a request. *)
Inductive json : Type :=
| JNull
| JBool (b : bool)
| JInt (n : Z)
| JStr (s : string)
| JList (l : list json)
| JDict (d : list (string * json)).

(** [bool(v)]: [None], [False], [0], [''], [[]] and [{}] are falsy. *)
Definition truthy (v : json) : bool :=
  match v with
  | JNull => false
  | JBool b => b
  | JInt n => negb (n =? 0)
  | JStr s => negb (s =? "")%string
  | JList l => match l with [] => false | _ => true end
  | JDict d => match d with [] => false | _ => true end
  end.

(** Exceptions that the modelled code can meet. *)
Inductive exn : Type :=
| OSError
| JSONDecodeError
| ValueError
| TypeError
| AttributeError
| UnboundLocalError
| BadRequest.

Definition exn_str (e : exn) : string :=
  match e with
  | OSError => "OSError"
  | JSONDecodeError => "JSONDecodeError"
  | ValueError => "ValueError"
  | TypeError => "TypeError"
  | AttributeError => "AttributeError"
  | UnboundLocalError => "UnboundLocalError"
  | BadRequest => "BadRequest"
  end.

Inductive result (A : Type) : Type :=
| Ok (a : A)
| Raise (e : exn).
Arguments Ok {A} a.
Arguments Raise {A} e.

(** A dict as the list of its items; the keys are distinct. *)
Fixpoint assoc (k : string) (d : list (string * json)) : option json :=
  match d with
  | [] => None
  | (k', v) :: d' => if (k =? k')%string then Some v else assoc k d'
  end.

(** [data.get(key, default)]: only a dict has [get]. *)
Definition dict_get (data : json) (key : string) (default : json) : result json :=
  match data with
  | JDict d => match assoc key d with Some v => Ok v | None => Ok default end
  | _ => Raise AttributeError
  end.

(** ** Strings

    A [string] holds the UTF-8 bytes of a Python [str]; byte-wise
    comparison is then the comparison of code points, and [strip] sees
    the white space of ASCII. *)

(** The ASCII characters for which [str.isspace] holds. *)
Definition isspace (c : ascii) : bool :=
  let n := N.to_nat (N_of_ascii c) in
  ((9 <=? n) && (n <=? 13) || (28 <=? n) && (n <=? 32))%nat.

Fixpoint lstrip (s : string) : string :=
  match s with
  | EmptyString => EmptyString
  | String c s' => if isspace c then lstrip s' else s
  end.

Fixpoint rstrip (s : string) : string :=
  match s with
  | EmptyString => EmptyString
  | String c s' =>
      match rstrip s' with
      | EmptyString => if isspace c then EmptyString else String c EmptyString
      | r => String c r
      end
  end.

(** [s.strip()] *)
Definition strip (s : string) : string := rstrip (lstrip s).

(** [s.replace('Z', '+00:00')] *)
Fixpoint replace_Z (s : string) : string :=
  match s with
  | EmptyString => EmptyString
  | String c s' =>
      if (c =? "Z")%char then ("+00:00" ++ replace_Z s')%string
      else String c (replace_Z s')
  end.

(** ** Dates and times *)

(** A [datetime] value as Python compares it: an aware one by its UTC
    instant, a naive one by its wall-clock reading, both in microseconds
    since the epoch. *)
Inductive datetime : Type :=
| Aware (utc : Z)
| Naive (wall : Z).

(** The two functions of the [datetime] module that the program calls on
    strings.  [LAST_UPDATE_TIME], [cutoff_time] and every reading of the
    clock are aware UTC values and are kept as their instant, a [Z].
    [fromisoformat] gives [None] where Python raises [ValueError]. *)
Class DatetimeLib : Type := {
  fromisoformat : string -> option datetime;
  isoformat : Z -> string
}.

(** [timedelta(hours=h)] *)
Definition timedelta_hours (h : Z) : Z := h * 3600 * 1000000.

(** [a > d] for an aware [a]: comparing with a naive value raises. *)
Definition aware_gt (a : Z) (d : datetime) : result bool :=
  match d with
  | Aware t => Ok (t <? a)
  | Naive _ => Raise TypeError
  end.

(** [d > a] for an aware [a]. *)
Definition gt_aware (d : datetime) (a : Z) : result bool :=
  match d with
  | Aware t => Ok (a <? t)
  | Naive _ => Raise TypeError
  end.

(** ** Records *)

Definition ALL_TOPICS : list string :=
  [ "confession"; "life"; "secrets"; "advice"; "love";
    "series-movies"; "politically-incorrect"; "paranormal";
    "health-fitness"; "vent"; "music"; "fashion";
    "gaming"; "otaku-stuff"; "random" ].

Definition in_topics (t : string) : bool :=
  existsb (String.eqb t) ALL_TOPICS.

(** A post.  Every dict in whispers.json has the keys that
    [create_whisper] writes; [topic] alone is read with [get] and a
    default, so it alone may be missing. *)
Module Whisper.
Record t : Type := mk {
  id : Z;
  content : string;
  topic : option string;
  is_sensitive : json;
  replies_count : Z;
  created_at : string
}.

(** [w['replies_count'] = n] *)
Definition set_replies_count (n : Z) (w : t) : t :=
  mk (id w) (content w) (topic w) (is_sensitive w) n (created_at w).

(** [w.get('topic', 'random')] *)
Definition get_topic (w : t) : string :=
  match topic w with
  | Some s => s
  | None => "random"
  end.
End Whisper.

Module Reply.
Record t : Type := mk {
  id : Z;
  whisper_id : Z;
  content : string;
  created_at : string
}.
End Reply.

Definition whisper : Type := Whisper.t.
Definition reply : Type := Reply.t.

(** ** The world *)

(** What a JSON file holds: nothing (no such file), text that
    [json.load] rejects, or a list of records. *)
Inductive stored (A : Type) : Type :=
| Absent
| Corrupt
| Stored (records : list A).
Arguments Absent {A}.
Arguments Corrupt {A}.
Arguments Stored {A} records.

Inductive file : Type -> Type :=
| WHISPERS_FILE : file whisper
| REPLIES_FILE : file reply.

(** One entry per [json.dump] that reached the disk, oldest first. *)
Inductive save_event : Type :=
| SavedWhispers (data : list whisper)
| SavedReplies (data : list reply).

Record world : Type := mkWorld {
  whispers_json : stored whisper;
  replies_json : stored reply;
  whispers_writable : bool;
  replies_writable : bool;
  LAST_UPDATE_TIME : Z;
  clock : nat -> Z;          (* successive readings of the system clock *)
  ticks : nat;               (* how many readings have been taken *)
  stdout : list string;
  saves : list save_event
}.

Definition contents {A} (f : file A) (σ : world) : stored A :=
  match f in file T return stored T with
  | WHISPERS_FILE => whispers_json σ
  | REPLIES_FILE => replies_json σ
  end.

Definition writable {A} (f : file A) (σ : world) : bool :=
  match f with
  | WHISPERS_FILE => whispers_writable σ
  | REPLIES_FILE => replies_writable σ
  end.

Definition saved {A} (f : file A) : list A -> save_event :=
  match f in file T return list T -> save_event with
  | WHISPERS_FILE => SavedWhispers
  | REPLIES_FILE => SavedReplies
  end.

Definition set_contents {A} (f : file A) : list A -> world -> world :=
  match f in file T return list T -> world -> world with
  | WHISPERS_FILE => fun data σ =>
      mkWorld (Stored data) (replies_json σ) (whispers_writable σ)
        (replies_writable σ) (LAST_UPDATE_TIME σ) (clock σ) (ticks σ)
        (stdout σ) (saves σ ++ [SavedWhispers data])
  | REPLIES_FILE => fun data σ =>
      mkWorld (whispers_json σ) (Stored data) (whispers_writable σ)
        (replies_writable σ) (LAST_UPDATE_TIME σ) (clock σ) (ticks σ)
        (stdout σ) (saves σ ++ [SavedReplies data])
  end.

Definition set_LAST_UPDATE_TIME (t : Z) (σ : world) : world :=
  mkWorld (whispers_json σ) (replies_json σ) (whispers_writable σ)
    (replies_writable σ) t (clock σ) (ticks σ) (stdout σ) (saves σ).

Definition tick (σ : world) : world :=
  mkWorld (whispers_json σ) (replies_json σ) (whispers_writable σ)
    (replies_writable σ) (LAST_UPDATE_TIME σ) (clock σ) (S (ticks σ))
    (stdout σ) (saves σ).

Definition write_stdout (line : string) (σ : world) : world :=
  mkWorld (whispers_json σ) (replies_json σ) (whispers_writable σ)
    (replies_writable σ) (LAST_UPDATE_TIME σ) (clock σ) (ticks σ)
    (stdout σ ++ [line]) (saves σ).

(** ** The monad of the program *)

Definition M (A : Type) : Type := world -> result A * world.

Definition ret {A} (a : A) : M A := fun σ => (Ok a, σ).

Definition bind {A B} (m : M A) (k : A -> M B) : M B :=
  fun σ =>
    match m σ with
    | (Ok a, σ') => k a σ'
    | (Raise e, σ') => (Raise e, σ')
    end.

Definition raise {A} (e : exn) : M A := fun σ => (Raise e, σ).

(** [try: body except Exception as e: handler(e)] *)
Definition try_except {A} (body : M A) (handler : exn -> M A) : M A :=
  fun σ =>
    match body σ with
    | (Ok a, σ') => (Ok a, σ')
    | (Raise e, σ') => handler e σ'
    end.

Definition lift {A} (r : result A) : M A := fun σ => (r, σ).

Declare Scope monad_scope.
Delimit Scope monad_scope with monad.
Notation "x <- m ;; k" := (bind m (fun x => k))
  (at level 61, m at next level, right associativity) : monad_scope.
Notation "m ;; k" := (bind m (fun _ => k))
  (at level 61, right associativity) : monad_scope.
Open Scope monad_scope.

Definition print (line : string) : M unit :=
  fun σ => (Ok tt, write_stdout line σ).

(** [datetime.now(timezone.utc)] *)
Definition datetime_now : M Z :=
  fun σ => (Ok (clock σ (ticks σ)), tick σ).

Definition read_LAST_UPDATE_TIME : M Z :=
  fun σ => (Ok (LAST_UPDATE_TIME σ), σ).

(** [LAST_UPDATE_TIME = t] *)
Definition write_LAST_UPDATE_TIME (t : Z) : M unit :=
  fun σ => (Ok tt, set_LAST_UPDATE_TIME t σ).

(** ** Store *)

(** [open(file_path, 'r')] followed by [json.load(f)] *)
Definition read_json {A} (f : file A) : M (list A) :=
  fun σ =>
    match contents f σ with
    | Absent => (Raise OSError, σ)
    | Corrupt => (Raise JSONDecodeError, σ)
    | Stored records => (Ok records, σ)
    end.

Definition load_data {A} (f : file A) : M (list A) :=
  try_except (read_json f)
    (fun e => print ("load_data error: " ++ exn_str e)%string ;; ret []).

(** [open(file_path, 'w')] followed by [json.dump(data, f, ...)]: a file
    that cannot be opened for writing keeps what it held. *)
Definition write_json {A} (f : file A) (data : list A) : M unit :=
  fun σ =>
    if writable f σ then (Ok tt, set_contents f data σ)
    else (Raise OSError, σ).

Definition save_data {A} (f : file A) (data : list A) : M bool :=
  try_except
    (write_json f data ;;
     now <- datetime_now ;;
     write_LAST_UPDATE_TIME now ;;
     ret true)
    (fun e => print ("save_data error: " ++ exn_str e)%string ;; ret false).

(** ** Retention sweeper *)

Section Program.
Context {DT : DatetimeLib}.

(** The [for w in whispers] loop of [cleanup_old_whispers], with its two
    accumulators; it stops at the first timestamp that does not parse or
    does not compare. *)
Fixpoint sweep (cutoff_time : Z) (whispers filtered_whispers : list whisper)
    (deleted_ids : list Z) : result (list whisper * list Z) :=
  match whispers with
  | [] => Ok (filtered_whispers, deleted_ids)
  | w :: rest =>
      match fromisoformat (replace_Z (Whisper.created_at w)) with
      | None => Raise ValueError
      | Some d =>
          match gt_aware d cutoff_time with
          | Raise e => Raise e
          | Ok true =>
              sweep cutoff_time rest (filtered_whispers ++ [w]) deleted_ids
          | Ok false =>
              sweep cutoff_time rest filtered_whispers
                (deleted_ids ++ [Whisper.id w])
          end
      end
  end.

(** [x not in l] on integers *)
Definition not_in (x : Z) (l : list Z) : bool := negb (existsb (Z.eqb x) l).

Definition cleanup_old_whispers : M bool :=
  try_except
    (whispers <- load_data WHISPERS_FILE ;;
     now <- datetime_now ;;
     let cutoff_time := now - timedelta_hours 48 in
     parts <- lift (sweep cutoff_time whispers [] []) ;;
     let '(filtered_whispers, deleted_ids) := parts in
     match deleted_ids with
     | [] => ret true
     | _ :: _ =>
         replies <- load_data REPLIES_FILE ;;
         let filtered_replies :=
           filter (fun r => not_in (Reply.whisper_id r) deleted_ids) replies in
         save_data REPLIES_FILE filtered_replies ;;
         save_data WHISPERS_FILE filtered_whispers ;;
         ret true
     end)
    (fun e => print ("cleanup error: " ++ exn_str e)%string ;; ret false).

(** ** Requests and responses *)

Record request : Type := mkRequest {
  args : list (string * string);   (* the query string, decoded *)
  body : option json               (* the JSON body, when there is one *)
}.

(** [request.args.get(key)] *)
Fixpoint args_get (key : string) (l : list (string * string)) : option string :=
  match l with
  | [] => None
  | (k, v) :: l' => if (key =? k)%string then Some v else args_get key l'
  end.

(** [request.args.get(key, default)] *)
Definition args_get_default (key default : string) (r : request) : string :=
  match args_get key (args r) with
  | Some v => v
  | None => default
  end.

(** [request.get_json()] *)
Definition get_json (r : request) : M json :=
  match body r with
  | Some data => ret data
  | None => raise BadRequest
  end.

(** The dict given to [jsonify]; [Failure] is the one with
    ['success': False]. *)
Inductive payload : Type :=
| Whispers (data : list whisper) (last_update : string) (current_topic : string)
| Updates (has_updates : bool) (last_update : string) (total_whispers : Z)
    (topic : string)
| WhisperData (data : whisper)
| ReplyData (data : reply)
| Replies (data : list reply)
| Topics (data : list string)
| Failure (error : string).

(** Status code and body. *)
Definition response : Type := (Z * payload)%type.

(** ** Sorting *)

(** [list.sort] is stable, also with [reverse=True]: of two records with
    the same key the one that came first stays first.  The keys are
    strings and compare as such. *)
Section Sort.
Variable A : Type.
Variable key : A -> string.
Variable reverse : bool.

(** Must [y] stay in front of a record [x] that came before it? *)
Definition before (y x : A) : bool :=
  if reverse then String.ltb (key x) (key y)
  else String.ltb (key y) (key x).

Fixpoint insert (x : A) (l : list A) : list A :=
  match l with
  | [] => [x]
  | y :: l' => if before y x then y :: insert x l' else x :: l
  end.

Definition sort (l : list A) : list A := fold_right insert [] l.
End Sort.

(** ** Handlers *)

Definition str_truthy (s : string) : bool := negb (s =? "")%string.

Definition has_topic (topic : string) (w : whisper) : bool :=
  (Whisper.get_topic w =? topic)%string.

Definition get_whispers (r : request) : M response :=
  try_except
    (cleanup_old_whispers ;;
     let topic := args_get_default "topic" "all" r in
     whispers <- load_data WHISPERS_FILE ;;
     let '(topic, whispers) :=
       if str_truthy topic && negb (topic =? "all")%string then
         let topic := if negb (in_topics topic) then "all" else topic in
         (topic, filter (has_topic topic) whispers)
       else (topic, whispers) in
     let whispers := sort Whisper.created_at true whispers in
     last <- read_LAST_UPDATE_TIME ;;
     ret (200, Whispers whispers (isoformat last) topic))
    (fun e => ret (500, Failure (exn_str e))).

(** Reading a local variable: one that no branch assigned raises. *)
Definition local {A} (v : option A) : M A :=
  match v with
  | Some a => ret a
  | None => raise UnboundLocalError
  end.

(** The staleness test of [check_updates]; its bare [except] turns every
    failure into [True]. *)
Definition data_changed (last_client_update : option string) (last : Z) : bool :=
  match last_client_update with
  | Some s =>
      if str_truthy s then
        match fromisoformat (replace_Z s) with
        | None => true
        | Some client_time =>
            match aware_gt last client_time with
            | Ok b => b
            | Raise _ => true
            end
        end
      else true
  | None => true
  end.

Definition check_updates (r : request) : M response :=
  let last_client_update := args_get "last_update" (args r) in
  let client_topic := args_get_default "topic" "all" r in
  try_except
    (whispers <- load_data WHISPERS_FILE ;;
     let '(client_topic, current_count) :=
       if str_truthy client_topic && negb (client_topic =? "all")%string then
         if negb (in_topics client_topic) then ("all", None)
         else
           (client_topic,
            Some (Z.of_nat (List.length (filter (has_topic client_topic) whispers))))
       else (client_topic, Some (Z.of_nat (List.length whispers))) in
     last <- read_LAST_UPDATE_TIME ;;
     let changed := data_changed last_client_update last in
     total <- local current_count ;;
     ret (200, Updates changed (isoformat last) total client_topic))
    (fun e => ret (500, Failure (exn_str e))).

(** [next((w for w in whispers if w['id'] == id), None)] *)
Definition find_whisper (id : Z) (whispers : list whisper) : option whisper :=
  find (fun w => Whisper.id w =? id) whispers.

(** [len([r for r in replies if r['whisper_id'] == id])] *)
Definition count_replies (id : Z) (replies : list reply) : Z :=
  Z.of_nat (List.length (filter (fun r => Reply.whisper_id r =? id) replies)).

Definition get_whisper (id : Z) : M response :=
  whispers <- load_data WHISPERS_FILE ;;
  match find_whisper id whispers with
  | None => ret (404, Failure "Whisper not found")
  | Some whisper =>
      replies <- load_data REPLIES_FILE ;;
      let whisper :=
        Whisper.set_replies_count (count_replies id replies) whisper in
      ret (200, WhisperData whisper)
  end.

(** [max(l, default=d)] *)
Definition max_default (l : list Z) (d : Z) : Z :=
  match l with
  | [] => d
  | x :: l' => fold_left Z.max l' x
  end.

(** [s.strip()] on whatever the body holds under a key: only a string
    has [strip]. *)
Definition py_strip (v : json) : result string :=
  match v with
  | JStr s => Ok (strip s)
  | _ => Raise AttributeError
  end.

(** [topic not in ALL_TOPICS] sends everything but the fifteen names to
    ['random']. *)
Definition validate_topic (topic : json) : string :=
  match topic with
  | JStr s => if negb (in_topics s) then "random" else s
  | _ => "random"
  end.

(** [not data or not data.get('content')] *)
Definition content_missing (data : json) : result bool :=
  if negb (truthy data) then Ok true
  else
    match dict_get data "content" JNull with
    | Ok c => Ok (negb (truthy c))
    | Raise e => Raise e
    end.

Definition create_whisper (r : request) : M response :=
  data <- get_json r ;;
  missing <- lift (content_missing data) ;;
  if missing then ret (400, Failure "Content required")
  else
    whispers <- load_data WHISPERS_FILE ;;
    let new_id := max_default (map Whisper.id whispers) 0 + 1 in
    topic <- lift (dict_get data "topic" (JStr "random")) ;;
    let topic := validate_topic topic in
    raw <- lift (dict_get data "content" JNull) ;;
    content <- lift (py_strip raw) ;;
    is_sensitive <- lift (dict_get data "is_sensitive" (JBool false)) ;;
    now <- datetime_now ;;
    let whisper :=
      Whisper.mk new_id content (Some topic) is_sensitive 0 (isoformat now) in
    let whispers := whispers ++ [whisper] in
    saved <- save_data WHISPERS_FILE whispers ;;
    if saved then ret (200, WhisperData whisper)
    else ret (500, Failure "Save failed").

Definition get_replies (id : Z) : M response :=
  replies <- load_data REPLIES_FILE ;;
  let replies := filter (fun r => Reply.whisper_id r =? id) replies in
  let replies := sort Reply.created_at false replies in
  ret (200, Replies replies).

(** [whisper['replies_count'] = n] where [whisper] is the first dict of
    [whispers] with this id: the list sees the assignment. *)
Fixpoint assign_replies_count (id n : Z) (whispers : list whisper)
    : list whisper :=
  match whispers with
  | [] => []
  | w :: rest =>
      if Whisper.id w =? id then Whisper.set_replies_count n w :: rest
      else w :: assign_replies_count id n rest
  end.

Definition create_reply (id : Z) (r : request) : M response :=
  data <- get_json r ;;
  missing <- lift (content_missing data) ;;
  if missing then ret (400, Failure "Content required")
  else
    whispers <- load_data WHISPERS_FILE ;;
    match find_whisper id whispers with
    | None => ret (404, Failure "Whisper not found")
    | Some _ =>
        replies <- load_data REPLIES_FILE ;;
        let new_id := max_default (map Reply.id replies) 0 + 1 in
        raw <- lift (dict_get data "content" JNull) ;;
        content <- lift (py_strip raw) ;;
        now <- datetime_now ;;
        let reply := Reply.mk new_id id content (isoformat now) in
        let replies := replies ++ [reply] in
        saved <- save_data REPLIES_FILE replies ;;
        if saved then
          let whispers :=
            assign_replies_count id (count_replies id replies) whispers in
          save_data WHISPERS_FILE whispers ;;
          ret (200, ReplyData reply)
        else ret (500, Failure "Save failed")
    end.

Definition get_topics : M response := ret (200, Topics ALL_TOPICS).

End Program.

(** ** An instance of the date library

    ISO 8601 as [datetime.isoformat] writes it for an aware UTC value,
    [YYYY-MM-DDTHH:MM:SS[.ffffff]+00:00], and as [datetime.fromisoformat]
    reads it back: a date, then optionally any one separator, a time with
    seconds, a fraction of three or six digits and an offset [+HH:MM] or
    [-HH:MM].  The theorems below hold for every [DatetimeLib]; this one
    runs the program on concrete requests. *)
Module Iso8601.

Definition obind {A B} (o : option A) (k : A -> option B) : option B :=
  match o with
  | Some a => k a
  | None => None
  end.

Notation "x <-? o ;; k" := (obind o (fun x => k))
  (at level 61, o at next level, right associativity).
Notation "' p <-? o ;; k" := (obind o (fun x => match x with p => k end))
  (at level 61, p pattern, o at next level, right associativity).

Definition digit (c : ascii) : option Z :=
  let n := Z.of_N (N_of_ascii c) in
  if (48 <=? n) && (n <=? 57) then Some (n - 48) else None.

(** Exactly [n] decimal digits. *)
Fixpoint number (n : nat) (acc : Z) (s : string) : option (Z * string) :=
  match n with
  | O => Some (acc, s)
  | S n' =>
      match s with
      | String c s' =>
          match digit c with
          | Some d => number n' (10 * acc + d) s'
          | None => None
          end
      | EmptyString => None
      end
  end.

Definition expect (c : ascii) (s : string) : option string :=
  match s with
  | String c' s' => if (c =? c')%char then Some s' else None
  | EmptyString => None
  end.

Definition is_leap (y : Z) : bool :=
  ((y mod 4 =? 0) && negb (y mod 100 =? 0)) || (y mod 400 =? 0).

Definition days_in_month (y m : Z) : Z :=
  if m =? 2 then (if is_leap y then 29 else 28)
  else if (m =? 4) || (m =? 6) || (m =? 9) || (m =? 11) then 30
  else 31.

(** Days from 1970-01-01 to the given date of the proleptic Gregorian
    calendar. *)
Definition days_from_civil (y m d : Z) : Z :=
  let y' := if m <=? 2 then y - 1 else y in
  let era := y' / 400 in
  let yoe := y' - era * 400 in
  let doy := (153 * (if 2 <? m then m - 3 else m + 9) + 2) / 5 + d - 1 in
  let doe := yoe * 365 + yoe / 4 - yoe / 100 + doy in
  era * 146097 + doe - 719468.

(** The date that lies the given number of days after 1970-01-01. *)
Definition civil_from_days (days : Z) : Z * Z * Z :=
  let z := days + 719468 in
  let era := z / 146097 in
  let doe := z - era * 146097 in
  let yoe := (doe - doe / 1460 + doe / 36524 - doe / 146096) / 365 in
  let doy := doe - (365 * yoe + yoe / 4 - yoe / 100) in
  let mp := (5 * doy + 2) / 153 in
  let d := doy - (153 * mp + 2) / 5 + 1 in
  let m := if mp <? 10 then mp + 3 else mp - 9 in
  let y := yoe + era * 400 in
  (if m <=? 2 then y + 1 else y, m, d).

Definition fraction (s : string) : option (Z * string) :=
  match s with
  | String "." s' =>
      match number 6 0 s' with
      | Some r => Some r
      | None =>
          match number 3 0 s' with
          | Some (ms, rest) => Some (ms * 1000, rest)
          | None => None
          end
      end
  | _ => Some (0, s)
  end.

(** The offset in microseconds, or [None] for a naive value. *)
Definition offset (s : string) : option (option Z) :=
  match s with
  | EmptyString => Some None
  | String c s' =>
      sign <-? (if (c =? "+")%char then Some 1
                else if (c =? "-")%char then Some (-1) else None) ;;
      '(hh, s1) <-? number 2 0 s' ;;
      s2 <-? expect ":" s1 ;;
      '(mm, s3) <-? number 2 0 s2 ;;
      match s3 with
      | EmptyString =>
          if (hh <? 24) && (mm <? 60)
          then Some (Some (sign * (hh * 3600 + mm * 60) * 1000000))
          else None
      | _ => None
      end
  end.

Definition parse (s : string) : option datetime :=
  '(y, s1) <-? number 4 0 s ;;
  s2 <-? expect "-" s1 ;;
  '(m, s3) <-? number 2 0 s2 ;;
  s4 <-? expect "-" s3 ;;
  '(d, s5) <-? number 2 0 s4 ;;
  if negb ((1 <=? y) && (1 <=? m) && (m <=? 12) && (1 <=? d)
           && (d <=? days_in_month y m))
  then None
  else
    let midnight := days_from_civil y m d * 86400 * 1000000 in
    match s5 with
    | EmptyString => Some (Naive midnight)
    | String _ s6 =>
        '(hh, s7) <-? number 2 0 s6 ;;
        s8 <-? expect ":" s7 ;;
        '(mi, s9) <-? number 2 0 s8 ;;
        s10 <-? expect ":" s9 ;;
        '(ss, s11) <-? number 2 0 s10 ;;
        '(us, s12) <-? fraction s11 ;;
        off <-? offset s12 ;;
        if (hh <? 24) && (mi <? 60) && (ss <? 60) then
          let wall :=
            midnight + ((hh * 60 + mi) * 60 + ss) * 1000000 + us in
          match off with
          | None => Some (Naive wall)
          | Some o => Some (Aware (wall - o))
          end
        else None
    end.

(** [n] decimal digits of [v], the least significant last. *)
Fixpoint digits (n : nat) (v : Z) (acc : string) : string :=
  match n with
  | O => acc
  | S n' =>
      digits n' (v / 10) (String (ascii_of_N (Z.to_N (48 + v mod 10))) acc)
  end.

Definition format (t : Z) : string :=
  let day := 86400 * 1000000 in
  let '(y, m, d) := civil_from_days (t / day) in
  let us := t mod day in
  let secs := us / 1000000 in
  let frac := us mod 1000000 in
  let time :=
    digits 2 (secs / 3600)
      (String ":" (digits 2 (secs / 60 mod 60)
        (String ":" (digits 2 (secs mod 60)
          (if frac =? 0 then "+00:00"
           else String "." (digits 6 frac "+00:00")))))) in
  digits 4 y (String "-" (digits 2 m (String "-" (digits 2 d
    (String "T" time))))).

#[global] Instance lib : DatetimeLib :=
  {| fromisoformat := parse; isoformat := format |}.

End Iso8601.

(** ** What the proofs speak about *)

(** The records a file holds, as [load_data] sees them. *)
Definition records {A} (s : stored A) : list A :=
  match s with
  | Stored l => l
  | Absent | Corrupt => []
  end.

(** The world after [load_data f]: a failed read leaves one line on
    standard output and nothing else. *)
Definition load_log {A} (f : file A) (σ : world) : world :=
  match contents f σ with
  | Absent => write_stdout "load_data error: OSError" σ
  | Corrupt => write_stdout "load_data error: JSONDecodeError" σ
  | Stored _ => σ
  end.

(** The world after [save_data f data]. *)
Definition save_log {A} (f : file A) (data : list A) (σ : world) : world :=
  if writable f σ
  then set_LAST_UPDATE_TIME (clock σ (ticks σ)) (tick (set_contents f data σ))
  else write_stdout "save_data error: OSError" σ.

(** Two worlds with the same stored state: the files, what was saved and
    the shared timestamp.  Standard output and the clock may differ. *)
Definition same_store (σ σ' : world) : Prop :=
  whispers_json σ' = whispers_json σ /\
  replies_json σ' = replies_json σ /\
  saves σ' = saves σ /\
  LAST_UPDATE_TIME σ' = LAST_UPDATE_TIME σ.

Section Specification.
Context {DT : DatetimeLib}.

(** The post has a readable, aware [created_at]. *)
Definition well_stamped (w : whisper) : Prop :=
  exists t, fromisoformat (replace_Z (Whisper.created_at w)) = Some (Aware t).

(** [created_at > cutoff_time] for a post. *)
Definition created_after (cutoff_time : Z) (w : whisper) : bool :=
  match fromisoformat (replace_Z (Whisper.created_at w)) with
  | Some (Aware t) => cutoff_time <? t
  | _ => false
  end.

(** The posts that a sweep at [cutoff] keeps and expires, and the
    replies that outlive it. *)
Definition keep (cutoff : Z) (ws : list whisper) : list whisper :=
  filter (created_after cutoff) ws.

Definition expire (cutoff : Z) (ws : list whisper) : list whisper :=
  filter (fun w => negb (created_after cutoff w)) ws.

Definition surviving (expired : list whisper) (rs : list reply) : list reply :=
  filter (fun r => not_in (Reply.whisper_id r) (map Whisper.id expired)) rs.

End Specification.

(** [d.get(key, default)] on the fields of a dict *)
Definition field (key : string) (default : json) (d : list (string * json))
    : json :=
  match assoc key d with
  | Some v => v
  | None => default
  end.

(** The topic of the request is one that [check_updates] and
    [get_whispers] look up in [ALL_TOPICS] and do not find. *)
Definition unrecognized (topic : string) : Prop :=
  topic <> "" /\ topic <> "all" /\ in_topics topic = false.

(** The response is a success that carries this staleness flag. *)
Definition reports (a : result response * world) (stale : bool) : Prop :=
  exists last total topic, fst a = Ok (200, Updates stale last total topic).

(** The topic that [get_whispers] reports. *)
Definition effective_topic (topic : string) : string :=
  if str_truthy topic && negb (topic =? "all")%string
  then (if negb (in_topics topic) then "all" else topic)
  else topic.

(** The posts that [get_whispers] goes on to sort. *)
Definition selected (topic : string) (ws : list whisper) : list whisper :=
  if str_truthy topic && negb (topic =? "all")%string
  then filter (has_topic (effective_topic topic)) ws
  else ws.


(** Descending order of the keys: no record has a smaller key than the
    one that follows it. *)
Definition descending {A} (key : A -> string) (x y : A) : Prop :=
  String.ltb (key x) (key y) = false.

(** ** Concrete worlds and requests *)

Module Scenario.

(** 2024-01-02T03:04:05.123456+00:00 *)
Definition t0 : Z := 1704164645123456.

(** A clock that advances by one second between two readings. *)
Definition clock0 (n : nat) : Z := t0 + 1000000 * Z.of_nat n.

(** The world that [init_data] leaves at start-up. *)
Definition fresh : world :=
  mkWorld (Stored []) (Stored []) true true t0 clock0 0 [] [].

Definition GET (query : list (string * string)) : request :=
  mkRequest query None.

Definition POST (fields : list (string * json)) : request :=
  mkRequest [] (Some (JDict fields)).

Definition hello : whisper :=
  Whisper.mk 1 "hello" (Some "music") (JBool false) 0
    "2024-01-02T03:04:05.123456+00:00".

(** After [POST /api/whispers {content: " hello ", topic: "music"}]. *)
Definition one_post : world :=
  mkWorld (Stored [hello]) (Stored []) true true (clock0 1) clock0 2 []
    [SavedWhispers [hello]].


(** A post of 2023 next to [hello], with two replies each; the cached
    counts are out of date. *)
Definition old : whisper :=
  Whisper.mk 2 "old news" (Some "life") (JBool true) 7
    "2023-12-25T00:00:00+00:00".

Definition r1 : reply := Reply.mk 1 1 "hi" "2024-01-02T03:05:00+00:00".
Definition r2 : reply := Reply.mk 2 2 "so old" "2023-12-25T01:00:00+00:00".
Definition r3 : reply := Reply.mk 3 1 "hi again" "2024-01-02T03:06:00+00:00".
Definition r4 : reply := Reply.mk 4 2 "older" "2023-12-25T02:00:00+00:00".

Definition two_posts : world :=
  mkWorld (Stored [old; hello]) (Stored [r1; r2; r3; r4]) true true
    (clock0 1) clock0 2 [] [].

(** whispers.json holds text that is not JSON. *)
Definition unreadable : world :=
  mkWorld Corrupt (Stored []) true true t0 clock0 0 [] [].

End Scenario.

(** ** Start-up *)

(** What [path.write_text] leaves in a file: no [json.dump] is behind it
    and [LAST_UPDATE_TIME] is not touched. *)
Definition set_file {A} (f : file A) : list A -> world -> world :=
  match f in file T return list T -> world -> world with
  | WHISPERS_FILE => fun data σ =>
      mkWorld (Stored data) (replies_json σ) (whispers_writable σ)
        (replies_writable σ) (LAST_UPDATE_TIME σ) (clock σ) (ticks σ)
        (stdout σ) (saves σ)
  | REPLIES_FILE => fun data σ =>
      mkWorld (whispers_json σ) (Stored data) (whispers_writable σ)
        (replies_writable σ) (LAST_UPDATE_TIME σ) (clock σ) (ticks σ)
        (stdout σ) (saves σ)
  end.

(** [path.exists()] *)
Definition file_exists {A} (f : file A) : M bool :=
  fun σ =>
    match contents f σ with
    | Absent => (Ok false, σ)
    | Corrupt | Stored _ => (Ok true, σ)
    end.

(** [path.write_text('[]')] *)
Definition write_text_empty {A} (f : file A) : M unit :=
  fun σ =>
    if writable f σ then (Ok tt, set_file f [] σ)
    else (Raise OSError, σ).

Definition init_data : M unit :=
  there <- file_exists WHISPERS_FILE ;;
  (if negb there then write_text_empty WHISPERS_FILE else ret tt) ;;
  there <- file_exists REPLIES_FILE ;;
  if negb there then write_text_empty REPLIES_FILE else ret tt.

(** ** Calls *)

Section Calls.
Context {DT : DatetimeLib}.

(** What reaches the store: a request to one of the routes, or a tick
    of the cleanup thread. *)
Inductive call : Type :=
| Tick
| GET_whispers (r : request)
| GET_check_updates (r : request)
| GET_whisper (id : Z)
| POST_whispers (r : request)
| GET_replies (id : Z)
| POST_replies (id : Z) (r : request)
| GET_topics.

(** The world after a call; an uncaught exception leaves the world as
    the handler left it. *)
Definition after (c : call) (σ : world) : world :=
  match c with
  | Tick => snd (cleanup_old_whispers σ)
  | GET_whispers r => snd (get_whispers r σ)
  | GET_check_updates r => snd (check_updates r σ)
  | GET_whisper id => snd (get_whisper id σ)
  | POST_whispers r => snd (create_whisper r σ)
  | GET_replies id => snd (get_replies id σ)
  | POST_replies id r => snd (create_reply id r σ)
  | GET_topics => snd (get_topics σ)
  end.

(** The world after a sequence of calls, the first one first. *)
Definition after_all (cs : list call) (σ : world) : world :=
  fold_left (fun σ c => after c σ) cs σ.

End Calls.

(** The response is a 200. *)
Definition succeeded (a : result response) : bool :=
  match a with
  | Ok (200, _) => true
  | _ => false
  end.

(** The ids are distinct and positive, in both collections. *)
Definition well_formed (σ : world) : Prop :=
  let whispers := records (whispers_json σ) in
  let replies := records (replies_json σ) in
  NoDup (map Whisper.id whispers) /\
  NoDup (map Reply.id replies) /\
  Forall (fun w => 1 <= Whisper.id w) whispers /\
  Forall (fun r => 1 <= Reply.id r) replies.

(** Every post carries a topic of [ALL_TOPICS], or none. *)
Definition topics_valid (σ : world) : Prop :=
  Forall (fun w => in_topics (Whisper.get_topic w) = true)
    (records (whispers_json σ)).

(** What no call undoes. *)
Definition kept_by_calls (σ : world) : Prop :=
  well_formed σ /\ topics_valid σ.

(** Every stored reply belongs to a stored post. *)
Definition replies_attached (σ : world) : Prop :=
  forall r, In r (records (replies_json σ)) ->
    In (Reply.whisper_id r) (map Whisper.id (records (whispers_json σ))).

(** Ascending order of the keys: no record has a greater key than the
    one that follows it. *)
Definition ascending {A} (key : A -> string) (x y : A) : Prop :=
  String.ltb (key y) (key x) = false.

(** From [σ] to [σ'] the clock is read but not reset, and either the
    files and [LAST_UPDATE_TIME] are as before, or [LAST_UPDATE_TIME] is
    a reading of the clock taken on the way. *)
Definition stamped_or_same (σ σ' : world) : Prop :=
  clock σ' = clock σ /\
  (ticks σ <= ticks σ')%nat /\
  ((whispers_json σ' = whispers_json σ /\
    replies_json σ' = replies_json σ /\
    LAST_UPDATE_TIME σ' = LAST_UPDATE_TIME σ) \/
   exists n,
     (ticks σ <= n < ticks σ')%nat /\ LAST_UPDATE_TIME σ' = clock σ n).

(** * Proofs *)

(** ** The date library instance *)

Example iso_print_1 :
  Iso8601.format 1704164645123456 = "2024-01-02T03:04:05.123456+00:00".
Proof. reflexivity. Qed.

Example iso_print_2 : Iso8601.format 951782400000000 = "2000-02-29T00:00:00+00:00".
Proof. reflexivity. Qed.

Example iso_parse_1 :
  Iso8601.parse "2024-01-02T03:04:05.123456+00:00" = Some (Aware 1704164645123456).
Proof. reflexivity. Qed.

Example iso_parse_2 :
  Iso8601.parse (replace_Z "2024-01-02T03:04:05Z") = Some (Aware 1704164645000000).
Proof. reflexivity. Qed.

Example iso_parse_3 :
  Iso8601.parse "2024-01-02T05:04:05+02:00" = Some (Aware 1704164645000000).
Proof. reflexivity. Qed.

Example iso_parse_4 :
  Iso8601.parse "2024-01-02T03:04:05" = Some (Naive 1704164645000000).
Proof. reflexivity. Qed.

Example iso_parse_5 : Iso8601.parse "yesterday" = None.
Proof. reflexivity. Qed.

Example iso_parse_6 : Iso8601.parse "2023-02-29T00:00:00+00:00" = None.
Proof. reflexivity. Qed.

(** ** The store *)

Lemma load_data_eq A (f : file A) σ :
  load_data f σ = (Ok (records (contents f σ)), load_log f σ).
Proof.
  unfold load_data, try_except, read_json, load_log, records.
  destruct (contents f σ); reflexivity.
Qed.

Lemma save_data_eq A (f : file A) data σ :
  save_data f data σ = (Ok (writable f σ), save_log f data σ).
Proof.
  unfold save_data, try_except, bind, write_json, save_log.
  destruct (writable f σ); [destruct f|]; reflexivity.
Qed.

Lemma load_log_contents A B (f : file A) (g : file B) σ :
  contents g (load_log f σ) = contents g σ.
Proof. unfold load_log. destruct (contents f σ), g; reflexivity. Qed.

Lemma load_log_writable A B (f : file A) (g : file B) σ :
  writable g (load_log f σ) = writable g σ.
Proof. unfold load_log. destruct (contents f σ), g; reflexivity. Qed.

Lemma load_log_whispers_writable A (f : file A) σ :
  whispers_writable (load_log f σ) = whispers_writable σ.
Proof. exact (load_log_writable f WHISPERS_FILE σ). Qed.

Lemma load_log_replies_writable A (f : file A) σ :
  replies_writable (load_log f σ) = replies_writable σ.
Proof. exact (load_log_writable f REPLIES_FILE σ). Qed.

Lemma load_log_whispers A (f : file A) σ :
  whispers_json (load_log f σ) = whispers_json σ.
Proof. exact (load_log_contents f WHISPERS_FILE σ). Qed.

Lemma load_log_replies A (f : file A) σ :
  replies_json (load_log f σ) = replies_json σ.
Proof. exact (load_log_contents f REPLIES_FILE σ). Qed.

Lemma load_log_clock A (f : file A) σ :
  clock (load_log f σ) = clock σ /\ ticks (load_log f σ) = ticks σ.
Proof. unfold load_log. destruct (contents f σ); split; reflexivity. Qed.

Lemma load_log_LAST A (f : file A) σ :
  LAST_UPDATE_TIME (load_log f σ) = LAST_UPDATE_TIME σ.
Proof. unfold load_log. destruct (contents f σ); reflexivity. Qed.

Lemma load_log_saves A (f : file A) σ : saves (load_log f σ) = saves σ.
Proof. unfold load_log. destruct (contents f σ); reflexivity. Qed.

Lemma load_log_same_store A (f : file A) σ : same_store σ (load_log f σ).
Proof.
  repeat split;
    auto using load_log_whispers, load_log_replies, load_log_saves,
      load_log_LAST.
Qed.

Lemma same_store_refl σ : same_store σ σ.
Proof. repeat split. Qed.

Lemma same_store_trans σ1 σ2 σ3 :
  same_store σ1 σ2 -> same_store σ2 σ3 -> same_store σ1 σ3.
Proof.
  unfold same_store. intros (a & b & c & d) (a' & b' & c' & d').
  repeat split; congruence.
Qed.

Lemma save_log_whispers_json_W data σ :
  whispers_json (save_log WHISPERS_FILE data σ) =
    if whispers_writable σ then Stored data else whispers_json σ.
Proof. unfold save_log. simpl. destruct (whispers_writable σ); reflexivity. Qed.

Lemma save_log_whispers_json_R data σ :
  whispers_json (save_log REPLIES_FILE data σ) = whispers_json σ.
Proof. unfold save_log. simpl. destruct (replies_writable σ); reflexivity. Qed.

Lemma save_log_replies_json_R data σ :
  replies_json (save_log REPLIES_FILE data σ) =
    if replies_writable σ then Stored data else replies_json σ.
Proof. unfold save_log. simpl. destruct (replies_writable σ); reflexivity. Qed.

Lemma save_log_replies_json_W data σ :
  replies_json (save_log WHISPERS_FILE data σ) = replies_json σ.
Proof. unfold save_log. simpl. destruct (whispers_writable σ); reflexivity. Qed.

Lemma save_log_writable A (f : file A) data σ :
  whispers_writable (save_log f data σ) = whispers_writable σ /\
  replies_writable (save_log f data σ) = replies_writable σ.
Proof. unfold save_log. destruct (writable f σ), f; split; reflexivity. Qed.

Lemma save_log_saves A (f : file A) data σ :
  saves (save_log f data σ) =
    saves σ ++ (if writable f σ then [saved f data] else []).
Proof.
  unfold save_log. destruct (writable f σ); [destruct f; reflexivity|].
  simpl. now rewrite app_nil_r.
Qed.

(** C9.  [load_data] never raises: it returns the records of a readable
    file and leaves the world as it was, and on any failure to open or to
    parse the file it returns the empty list after printing one line. *)
Theorem load_data_never_raises A (f : file A) σ :
  exists l σ',
    load_data f σ = (Ok l, σ') /\
    same_store σ σ' /\
    (forall recs, contents f σ = Stored recs -> l = recs /\ σ' = σ) /\
    (forall e, fst (read_json f σ) = Raise e ->
       l = [] /\
       σ' = write_stdout ("load_data error: " ++ exn_str e)%string σ).
Proof.
  exists (records (contents f σ)), (load_log f σ).
  split; [apply load_data_eq|].
  split; [apply load_log_same_store|].
  unfold load_log, read_json, records.
  destruct (contents f σ); split; intros; simpl in *;
    try discriminate; try (injection H as <-); auto.
Qed.

(** ** Fetching one post *)

Section Handlers.
Context {DT : DatetimeLib}.

Lemma get_whisper_eq id σ :
  get_whisper id σ =
    match find_whisper id (records (whispers_json σ)) with
    | None =>
        (Ok (404, Failure "Whisper not found"), load_log WHISPERS_FILE σ)
    | Some w =>
        (Ok (200, WhisperData
               (Whisper.set_replies_count
                  (count_replies id (records (replies_json σ))) w)),
         load_log REPLIES_FILE (load_log WHISPERS_FILE σ))
    end.
Proof.
  unfold get_whisper, bind. rewrite load_data_eq.
  change (contents WHISPERS_FILE σ) with (whispers_json σ).
  destruct (find_whisper id (records (whispers_json σ))); [|reflexivity].
  unfold ret. rewrite load_data_eq, load_log_contents. reflexivity.
Qed.

Lemma find_whisper_id id ws w :
  find_whisper id ws = Some w -> In w ws /\ Whisper.id w = id.
Proof.
  unfold find_whisper. intros H. apply find_some in H as [Hin Heq].
  split; [assumption|]. now apply Z.eqb_eq.
Qed.

(** C10.  A successful fetch of post [id] returns the stored post with its
    [replies_count] replaced by the number of stored replies whose
    [whisper_id] is [id], whatever count the stored post carries. *)
Theorem get_whisper_counts_replies id σ w σ' :
  get_whisper id σ = (Ok (200, WhisperData w), σ') ->
  Whisper.replies_count w =
    Z.of_nat
      (List.length
         (filter (fun r => Reply.whisper_id r =? id)
            (records (replies_json σ)))) /\
  exists w0,
    find_whisper id (records (whispers_json σ)) = Some w0 /\
    w = Whisper.set_replies_count (Whisper.replies_count w) w0.
Proof.
  rewrite get_whisper_eq.
  destruct (find_whisper id (records (whispers_json σ))) as [w0|] eqn:Hfind;
    [|discriminate].
  intros H. injection H as <- _. split; [reflexivity|].
  exists w0. split; reflexivity.
Qed.

(** ** Identifiers *)

Lemma fold_left_max_le l a : a <= fold_left Z.max l a.
Proof.
  revert a. induction l as [|x l IH]; intros a; simpl; [lia|].
  specialize (IH (Z.max a x)). lia.
Qed.

Lemma fold_left_max_ge l a x : In x l -> x <= fold_left Z.max l a.
Proof.
  revert a. induction l as [|y l IH]; intros a Hin; [destruct Hin|].
  destruct Hin as [->|Hin]; simpl.
  - pose proof (fold_left_max_le l (Z.max a x)). lia.
  - now apply IH.
Qed.


Lemma max_default_ge l d x : In x l -> x <= max_default l d.
Proof.
  destruct l as [|y l]; intros Hin; [destruct Hin|].
  destruct Hin as [->|Hin]; simpl.
  - apply fold_left_max_le.
  - now apply fold_left_max_ge.
Qed.



(** ** Creating a post *)

Lemma content_missing_false data :
  content_missing data = Ok false ->
  exists d c,
    data = JDict d /\ assoc "content" d = Some c /\ truthy c = true.
Proof.
  unfold content_missing, dict_get.
  destruct data as [ |b|n|s|l|d]; simpl;
    try discriminate; try (destruct (negb _); discriminate).
  destruct d as [|p d]; [discriminate|]. cbn [truthy negb].
  destruct (assoc "content" (p :: d)) as [c|] eqn:Hc; [|discriminate].
  intros H. exists (p :: d), c. split; [reflexivity|]. split; [exact Hc|].
  injection H as H. destruct (truthy c); [reflexivity|discriminate].
Qed.

Lemma content_missing_dict d c :
  assoc "content" d = Some c -> truthy c = true ->
  content_missing (JDict d) = Ok false.
Proof.
  intros Hc Ht. unfold content_missing, dict_get. rewrite Hc, Ht.
  destruct d; [discriminate|]. reflexivity.
Qed.

Lemma create_whisper_eq r σ d s :
  body r = Some (JDict d) ->
  assoc "content" d = Some (JStr s) ->
  s <> "" ->
  let whispers := records (whispers_json σ) in
  let w :=
    Whisper.mk (max_default (map Whisper.id whispers) 0 + 1) (strip s)
      (Some (validate_topic (field "topic" (JStr "random") d)))
      (field "is_sensitive" (JBool false) d) 0
      (isoformat (clock σ (ticks σ))) in
  create_whisper r σ =
    (if whispers_writable σ then Ok (200, WhisperData w)
     else Ok (500, Failure "Save failed"),
     save_log WHISPERS_FILE (whispers ++ [w])
       (tick (load_log WHISPERS_FILE σ))).
Proof.
  intros Hb Hc Hs whispers w.
  assert (Ht : truthy (JStr s) = true).
  { simpl. destruct (String.eqb_spec s ""); [contradiction|reflexivity]. }
  unfold create_whisper, get_json, bind, lift. rewrite Hb. unfold ret at 1.
  rewrite (content_missing_dict _ Hc Ht). rewrite load_data_eq.
  unfold dict_get, py_strip. rewrite Hc.
  change (contents WHISPERS_FILE σ) with (whispers_json σ).
  fold whispers.
  replace (match assoc "topic" d with Some v => Ok v | None => Ok (JStr "random") end)
    with (Ok (field "topic" (JStr "random") d))
    by (unfold field; destruct (assoc "topic" d); reflexivity).
  replace (match assoc "is_sensitive" d with Some v => Ok v | None => Ok (JBool false) end)
    with (Ok (field "is_sensitive" (JBool false) d))
    by (unfold field; destruct (assoc "is_sensitive" d); reflexivity).
  unfold datetime_now. rewrite save_data_eq.
  destruct (load_log_clock WHISPERS_FILE σ) as [-> ->].
  change (writable WHISPERS_FILE (tick (load_log WHISPERS_FILE σ)))
    with (whispers_writable (load_log WHISPERS_FILE σ)).
  rewrite load_log_whispers_writable. fold w.
  destruct (whispers_writable σ); reflexivity.
Qed.

Lemma truthy_JStr s : truthy (JStr s) = true -> s <> "".
Proof. simpl. intros H ->. discriminate. Qed.

Lemma create_whisper_inv r σ w σ' :
  create_whisper r σ = (Ok (200, WhisperData w), σ') ->
  exists d s,
    body r = Some (JDict d) /\ assoc "content" d = Some (JStr s) /\ s <> "".
Proof.
  unfold create_whisper, get_json, bind, lift.
  destruct (body r) as [data|]; [|discriminate]. unfold ret at 1.
  destruct (content_missing data) as [[|]|e] eqn:Hm; try discriminate.
  apply content_missing_false in Hm as (d & c & -> & Hc & Ht).
  rewrite load_data_eq. unfold dict_get, py_strip. rewrite Hc.
  intros H. exists d.
  destruct c as [ |b|n|s|l|d']; try (destruct (assoc "topic" d); discriminate).
  exists s. auto using truthy_JStr.
Qed.



Lemma create_whisper_content_missing r σ data :
  body r = Some data ->
  content_missing data = Ok true ->
  create_whisper r σ = (Ok (400, Failure "Content required"), σ).
Proof.
  intros Hb Hm. unfold create_whisper, get_json, bind, lift.
  rewrite Hb. unfold ret at 1. rewrite Hm. reflexivity.
Qed.

(** A body without [content], or with the empty string as [content], is
    refused and nothing changes. *)
Lemma create_whisper_empty_content_rejected r σ d :
  body r = Some (JDict d) ->
  field "content" (JStr "") d = JStr "" ->
  create_whisper r σ = (Ok (400, Failure "Content required"), σ).
Proof.
  intros Hb Hc. apply create_whisper_content_missing with (data := JDict d);
    [assumption|].
  unfold content_missing, dict_get. unfold field in Hc.
  destruct d as [|p d]; [reflexivity|]. cbn [truthy negb].
  destruct (assoc "content" (p :: d)); [subst|]; reflexivity.
Qed.

(** C1, where the code departs from it.  The test for a missing content
    runs before [strip]: a content of white space alone is not empty, so
    the post is created and stored, with the empty string as content. *)
Theorem create_whisper_blank_content_stored r σ d s :
  body r = Some (JDict d) ->
  assoc "content" d = Some (JStr s) ->
  s <> "" ->
  strip s = "" ->
  whispers_writable σ = true ->
  exists w,
    fst (create_whisper r σ) = Ok (200, WhisperData w) /\
    Whisper.content w = "" /\
    whispers_json (snd (create_whisper r σ)) =
      Stored (records (whispers_json σ) ++ [w]).
Proof.
  intros Hb Hc Hs Hstrip Hw.
  rewrite (create_whisper_eq _ σ Hb Hc Hs), Hw. eexists. cbn [fst snd].
  split; [reflexivity|]. split; [exact Hstrip|].
  rewrite save_log_whispers_json_W.
  change (whispers_writable (tick (load_log WHISPERS_FILE σ)))
    with (whispers_writable (load_log WHISPERS_FILE σ)).
  now rewrite load_log_whispers_writable, Hw.
Qed.

(** ** Creating a reply *)

Lemma create_reply_not_found id r σ data :
  body r = Some data ->
  content_missing data = Ok false ->
  find_whisper id (records (whispers_json σ)) = None ->
  create_reply id r σ =
    (Ok (404, Failure "Whisper not found"), load_log WHISPERS_FILE σ).
Proof.
  intros Hb Hm Hfind. unfold create_reply, get_json, bind, lift.
  rewrite Hb. unfold ret at 1. rewrite Hm, load_data_eq.
  change (contents WHISPERS_FILE σ) with (whispers_json σ).
  rewrite Hfind. reflexivity.
Qed.

Lemma create_reply_eq id r σ d s w0 :
  body r = Some (JDict d) ->
  assoc "content" d = Some (JStr s) ->
  s <> "" ->
  find_whisper id (records (whispers_json σ)) = Some w0 ->
  let whispers := records (whispers_json σ) in
  let replies := records (replies_json σ) in
  let reply :=
    Reply.mk (max_default (map Reply.id replies) 0 + 1) id (strip s)
      (isoformat (clock σ (ticks σ))) in
  let σ1 := tick (load_log REPLIES_FILE (load_log WHISPERS_FILE σ)) in
  let σ2 := save_log REPLIES_FILE (replies ++ [reply]) σ1 in
  create_reply id r σ =
    if replies_writable σ then
      (Ok (200, ReplyData reply),
       save_log WHISPERS_FILE
         (assign_replies_count id (count_replies id (replies ++ [reply]))
            whispers) σ2)
    else (Ok (500, Failure "Save failed"), σ2).
Proof.
  intros Hb Hc Hs Hfind whispers replies reply σ1 σ2.
  assert (Ht : truthy (JStr s) = true).
  { simpl. destruct (String.eqb_spec s ""); [contradiction|reflexivity]. }
  unfold create_reply, get_json, bind, lift. rewrite Hb. unfold ret at 1.
  rewrite (content_missing_dict _ Hc Ht), load_data_eq.
  change (contents WHISPERS_FILE σ) with (whispers_json σ).
  rewrite Hfind, load_data_eq, load_log_contents.
  change (contents REPLIES_FILE σ) with (replies_json σ).
  unfold dict_get, py_strip. rewrite Hc. unfold datetime_now.
  destruct (load_log_clock REPLIES_FILE (load_log WHISPERS_FILE σ)) as [-> ->].
  destruct (load_log_clock WHISPERS_FILE σ) as [-> ->].
  rewrite save_data_eq. fold replies reply σ1 σ2.
  change (writable REPLIES_FILE σ1)
    with (replies_writable (load_log REPLIES_FILE (load_log WHISPERS_FILE σ))).
  rewrite !load_log_replies_writable.
  destruct (replies_writable σ); [|reflexivity].
  rewrite save_data_eq. reflexivity.
Qed.



Lemma find_whisper_assign id n ws :
  find_whisper id (assign_replies_count id n ws) =
    option_map (Whisper.set_replies_count n) (find_whisper id ws).
Proof.
  unfold find_whisper. induction ws as [|w ws IH]; simpl; [reflexivity|].
  destruct (Z.eqb_spec (Whisper.id w) id) as [E|E]; simpl.
  - now rewrite E, Z.eqb_refl.
  - destruct (Z.eqb_spec (Whisper.id w) id); [contradiction|exact IH].
Qed.



(** ** Checking for updates *)

Lemma unrecognized_test topic :
  unrecognized topic ->
  str_truthy topic && negb (topic =? "all")%string = true /\
  negb (in_topics topic) = true.
Proof.
  intros (H1 & H2 & H3). unfold str_truthy. rewrite H3.
  destruct (String.eqb_spec topic ""); [contradiction|].
  destruct (String.eqb_spec topic "all"); [contradiction|]. now split.
Qed.

Lemma in_topics_test topic :
  in_topics topic = true ->
  str_truthy topic && negb (topic =? "all")%string = true.
Proof.
  unfold str_truthy.
  destruct (String.eqb_spec topic "") as [->|_]; [discriminate|].
  destruct (String.eqb_spec topic "all") as [->|_]; [discriminate|].
  reflexivity.
Qed.

Lemma check_updates_unrecognized r σ :
  unrecognized (args_get_default "topic" "all" r) ->
  check_updates r σ =
    (Ok (500, Failure "UnboundLocalError"), load_log WHISPERS_FILE σ).
Proof.
  intros H. apply unrecognized_test in H as [H1 H2].
  unfold check_updates, try_except, bind. rewrite load_data_eq, H1, H2.
  reflexivity.
Qed.

Lemma check_updates_recognized r σ :
  let topic := args_get_default "topic" "all" r in
  in_topics topic = true ->
  check_updates r σ =
    (Ok (200,
         Updates
           (data_changed (args_get "last_update" (args r))
              (LAST_UPDATE_TIME σ))
           (isoformat (LAST_UPDATE_TIME σ))
           (Z.of_nat
              (List.length
                 (filter (has_topic topic) (records (whispers_json σ)))))
           topic),
     load_log WHISPERS_FILE σ).
Proof.
  intros topic H. unfold check_updates, try_except, bind.
  fold topic. rewrite load_data_eq, (in_topics_test _ H), H.
  cbn [negb]. unfold read_LAST_UPDATE_TIME, local, ret.
  now rewrite load_log_LAST.
Qed.

Lemma check_updates_unfiltered r σ :
  let topic := args_get_default "topic" "all" r in
  topic = "" \/ topic = "all" ->
  check_updates r σ =
    (Ok (200,
         Updates
           (data_changed (args_get "last_update" (args r))
              (LAST_UPDATE_TIME σ))
           (isoformat (LAST_UPDATE_TIME σ))
           (Z.of_nat (List.length (records (whispers_json σ))))
           topic),
     load_log WHISPERS_FILE σ).
Proof.
  intros topic H. unfold check_updates, try_except, bind.
  fold topic. rewrite load_data_eq.
  assert (E : str_truthy topic && negb (topic =? "all")%string = false)
    by (destruct H as [-> | ->]; reflexivity).
  rewrite E. unfold read_LAST_UPDATE_TIME, local, ret.
  now rewrite load_log_LAST.
Qed.

(** What [data_changed] computes: stale without a timestamp, stale with
    one that does not parse or has no offset, and otherwise stale exactly
    when the timestamp lies before the shared one. *)
Lemma data_changed_none last : data_changed None last = true.
Proof. reflexivity. Qed.

Lemma data_changed_malformed s last :
  fromisoformat (replace_Z s) = None -> data_changed (Some s) last = true.
Proof. unfold data_changed. intros ->. now destruct (str_truthy s). Qed.

Lemma data_changed_naive s t last :
  fromisoformat (replace_Z s) = Some (Naive t) ->
  data_changed (Some s) last = true.
Proof. unfold data_changed. intros ->. now destruct (str_truthy s). Qed.

Lemma data_changed_aware s t last :
  s <> "" ->
  fromisoformat (replace_Z s) = Some (Aware t) ->
  data_changed (Some s) last = (t <? last).
Proof.
  unfold data_changed, str_truthy. intros Hs ->.
  destruct (String.eqb_spec s ""); [contradiction|reflexivity].
Qed.

Lemma data_changed_equal s last :
  s <> "" ->
  fromisoformat (replace_Z s) = Some (Aware last) ->
  data_changed (Some s) last = false.
Proof.
  intros Hs H. rewrite (data_changed_aware _ Hs H). apply Z.ltb_irrefl.
Qed.

Lemma data_changed_older s t last :
  fromisoformat (replace_Z s) = Some (Aware t) ->
  t < last ->
  data_changed (Some s) last = true.
Proof.
  unfold data_changed. intros -> Hlt. simpl.
  destruct (str_truthy s); [|reflexivity]. now apply Z.ltb_lt.
Qed.

(** On the requests that [check_updates] answers, those with a topic of
    [ALL_TOPICS], with ["all"] or with none, the response carries
    [data_changed] of the client's timestamp. *)
Lemma check_updates_staleness r σ :
  let topic := args_get_default "topic" "all" r in
  in_topics topic = true \/ topic = "" \/ topic = "all" ->
  reports (check_updates r σ)
    (data_changed (args_get "last_update" (args r)) (LAST_UPDATE_TIME σ)).
Proof.
  intros topic [H|H].
  - rewrite (check_updates_recognized r σ H). now eexists _, _, _.
  - rewrite (check_updates_unfiltered r σ H). now eexists _, _, _.
Qed.

(** C2, where the code departs from it.  [check_updates] renames a topic
    it does not know to ["all"] and then never sets [current_count]:
    building the response raises, and the handler answers 500.  The
    store is not touched. *)
Theorem check_updates_unrecognized_topic_fails r σ :
  unrecognized (args_get_default "topic" "all" r) ->
  exists σ',
    check_updates r σ = (Ok (500, Failure "UnboundLocalError"), σ') /\
    same_store σ σ'.
Proof.
  intros H. rewrite (check_updates_unrecognized r σ H). eexists.
  split; [reflexivity|apply load_log_same_store].
Qed.

(** C4, where the code departs from it.  A request with an unrecognized
    topic gets no staleness flag at all, whatever [last_update] it
    carries: the response is the failure that the unset
    [current_count] leads to. *)
Theorem check_updates_unrecognized_topic_no_flag r σ :
  unrecognized (args_get_default "topic" "all" r) ->
  forall stale, ~ reports (check_updates r σ) stale.
Proof.
  intros H stale (last & total & topic & E).
  rewrite (check_updates_unrecognized r σ H) in E. discriminate.
Qed.

(** ** The sweep *)

Lemma try_except_print_total A (body : M A) (prefix : exn -> string) (a : A) σ :
  exists b σ',
    try_except body (fun e => print (prefix e) ;; ret a) σ = (Ok b, σ').
Proof.
  unfold try_except, bind, print, ret.
  destruct (body σ) as [[b|e] σ']; eauto.
Qed.

Lemma cleanup_old_whispers_total σ :
  exists b σ', cleanup_old_whispers σ = (Ok b, σ').
Proof.
  exact (try_except_print_total _
           (fun e => ("cleanup error: " ++ exn_str e)%string) false σ).
Qed.

Lemma sweep_well_stamped cutoff ws filtered deleted :
  Forall well_stamped ws ->
  sweep cutoff ws filtered deleted =
    Ok (filtered ++ filter (created_after cutoff) ws,
        deleted ++
          map Whisper.id (filter (fun w => negb (created_after cutoff w)) ws)).
Proof.
  intros H. revert filtered deleted.
  induction H as [|w ws [t Ht] _ IH]; intros filtered deleted; simpl.
  - now rewrite !app_nil_r.
  - unfold created_after. rewrite Ht. simpl.
    destruct (cutoff <? t); simpl; rewrite IH, <- app_assoc; reflexivity.
Qed.

Lemma cleanup_old_whispers_eq σ :
  Forall well_stamped (records (whispers_json σ)) ->
  let whispers := records (whispers_json σ) in
  let cutoff := clock σ (ticks σ) - timedelta_hours 48 in
  let σ1 := tick (load_log WHISPERS_FILE σ) in
  cleanup_old_whispers σ =
    match expire cutoff whispers with
    | [] => (Ok true, σ1)
    | _ :: _ =>
        (Ok true,
         save_log WHISPERS_FILE (keep cutoff whispers)
           (save_log REPLIES_FILE
              (surviving (expire cutoff whispers) (records (replies_json σ)))
              (load_log REPLIES_FILE σ1)))
    end.
Proof.
  intros H whispers cutoff σ1.
  unfold cleanup_old_whispers, try_except, bind at 1.
  rewrite load_data_eq. unfold bind at 1, datetime_now.
  destruct (load_log_clock WHISPERS_FILE σ) as [-> ->].
  change (contents WHISPERS_FILE σ) with (whispers_json σ).
  fold whispers cutoff σ1. unfold bind at 1, lift.
  pose proof (sweep_well_stamped cutoff [] [] H) as Hs.
  change (records (whispers_json σ)) with whispers in Hs.
  rewrite Hs. cbn [app].
  fold (expire cutoff whispers) (keep cutoff whispers).
  destruct (expire cutoff whispers) as [|w0 ex] eqn:E; [reflexivity|].
  cbn [map]. unfold bind. rewrite load_data_eq, !save_data_eq.
  unfold ret.
  change (contents REPLIES_FILE σ1)
    with (replies_json (load_log WHISPERS_FILE σ)).
  rewrite load_log_replies. reflexivity.
Qed.

Lemma created_after_spec cutoff w t :
  fromisoformat (replace_Z (Whisper.created_at w)) = Some (Aware t) ->
  created_after cutoff w = (cutoff <? t).
Proof. unfold created_after. now intros ->. Qed.

Lemma surviving_spec expired rs r :
  In r (surviving expired rs) <->
  In r rs /\ ~ In (Reply.whisper_id r) (map Whisper.id expired).
Proof.
  unfold surviving, not_in. rewrite filter_In, negb_true_iff.
  split; intros [Hin H]; (split; [assumption|]).
  - intros Hex. assert (E : existsb (Z.eqb (Reply.whisper_id r))
                               (map Whisper.id expired) = true).
    { apply existsb_exists. exists (Reply.whisper_id r).
      split; [assumption|apply Z.eqb_refl]. }
    congruence.
  - destruct (existsb _ _) eqn:E; [|reflexivity].
    apply existsb_exists in E as (x & Hx & Heq).
    apply Z.eqb_eq in Heq. subst x. contradiction.
Qed.

(** C3.  On posts whose [created_at] are aware timestamps, a sweep at
    time [now] keeps those created after [now] minus 48 hours and expires
    the others.  When some post expires, the replies to the expired posts
    are dropped and the remaining replies are saved first, the kept posts
    second; when none expires, nothing is saved. *)
Theorem cleanup_old_whispers_sweeps σ :
  Forall well_stamped (records (whispers_json σ)) ->
  let whispers := records (whispers_json σ) in
  let replies := records (replies_json σ) in
  let cutoff := clock σ (ticks σ) - timedelta_hours 48 in
  let σ' := snd (cleanup_old_whispers σ) in
  fst (cleanup_old_whispers σ) = Ok true /\
  (forall w t,
     In w whispers ->
     fromisoformat (replace_Z (Whisper.created_at w)) = Some (Aware t) ->
     (In w (keep cutoff whispers) <-> cutoff < t) /\
     (In w (expire cutoff whispers) <-> t <= cutoff)) /\
  (forall r,
     In r (surviving (expire cutoff whispers) replies) <->
     In r replies /\
     ~ In (Reply.whisper_id r) (map Whisper.id (expire cutoff whispers))) /\
  (expire cutoff whispers = [] -> same_store σ σ') /\
  (expire cutoff whispers <> [] ->
   saves σ' =
     saves σ ++
     (if replies_writable σ
      then [SavedReplies (surviving (expire cutoff whispers) replies)]
      else []) ++
     (if whispers_writable σ
      then [SavedWhispers (keep cutoff whispers)]
      else []) /\
   (replies_writable σ = true ->
    replies_json σ' = Stored (surviving (expire cutoff whispers) replies)) /\
   (whispers_writable σ = true ->
    whispers_json σ' = Stored (keep cutoff whispers))).
Proof.
  intros H whispers replies cutoff σ'.
  pose proof (@cleanup_old_whispers_eq σ H) as E. cbv zeta in E.
  fold whispers cutoff in E. subst σ'.
  split; [rewrite E; now destruct (expire cutoff whispers)|].
  split.
  { intros w t Hin Ht. unfold keep, expire.
    rewrite !filter_In, (created_after_spec cutoff _ Ht), negb_true_iff.
    rewrite Z.ltb_lt, Z.ltb_ge. tauto. }
  split; [intros r; apply surviving_spec|].
  split.
  - intros Hex. rewrite E, Hex. cbn [snd].
    apply (load_log_same_store WHISPERS_FILE σ).
  - intros Hex. rewrite E.
    destruct (expire cutoff whispers) as [|w0 ex] eqn:Eex; [congruence|].
    cbn [snd].
    set (σ1 := load_log REPLIES_FILE (tick (load_log WHISPERS_FILE σ))).
    assert (Hσ1 : replies_writable σ1 = replies_writable σ /\
                  whispers_writable σ1 = whispers_writable σ /\
                  saves σ1 = saves σ).
    { subst σ1. rewrite load_log_replies_writable, load_log_whispers_writable,
        load_log_saves. cbn [replies_writable whispers_writable saves tick].
      now rewrite load_log_replies_writable, load_log_whispers_writable,
        load_log_saves. }
    destruct Hσ1 as (Hr & Hw & Hs).
    fold replies.
    destruct (save_log_writable REPLIES_FILE (surviving (w0 :: ex) replies) σ1)
      as [Hw' _].
    split; [|split].
    + rewrite !save_log_saves. cbn [writable saved].
      now rewrite Hw', Hw, Hr, Hs, app_assoc.
    + intros Hrw. rewrite save_log_replies_json_W, save_log_replies_json_R.
      now rewrite Hr, Hrw.
    + intros Hww. rewrite save_log_whispers_json_W.
      now rewrite Hw', Hw, Hww.
Qed.

(** ** Sorting *)

Lemma ltb_asym (a b : string) : String.ltb a b = true -> String.ltb b a = false.
Proof.
  unfold String.ltb. rewrite (String.compare_antisym a b).
  destruct (String.compare b a); simpl; congruence.
Qed.

Section SortFacts.
Variable A : Type.
Variable key : A -> string.

Lemma insert_perm reverse (x : A) l :
  Permutation (insert key reverse x l) (x :: l).
Proof.
  induction l as [|y l IH]; simpl; [reflexivity|].
  destruct (before key reverse y x); [|reflexivity].
  rewrite IH. apply perm_swap.
Qed.

Lemma sort_perm reverse (l : list A) : Permutation (sort key reverse l) l.
Proof.
  induction l as [|x l IH]; simpl; [reflexivity|].
  unfold sort in IH. rewrite insert_perm. now constructor.
Qed.

Lemma insert_hd reverse (R : A -> A -> Prop) (x y : A) l :
  R y x -> HdRel R y l -> HdRel R y (insert key reverse x l).
Proof.
  intros Hyx Hl. destruct l as [|z l]; simpl; [now constructor|].
  destruct (before key reverse z x); constructor; [|assumption].
  now inversion Hl.
Qed.

Lemma insert_descending (x : A) l :
  Sorted (descending key) l ->
  Sorted (descending key) (insert key true x l).
Proof.
  induction 1 as [|y l Hs IH Hhd]; simpl; [repeat constructor|].
  destruct (String.ltb (key x) (key y)) eqn:E.
  - constructor; [exact IH|].
    apply insert_hd; [|exact Hhd]. now apply ltb_asym.
  - constructor; [now constructor|]. now constructor.
Qed.

Lemma sort_descending (l : list A) :
  Sorted (descending key) (sort key true l).
Proof.
  induction l as [|x l IH]; simpl; [constructor|].
  now apply insert_descending.
Qed.
End SortFacts.

(** ** Listing the posts *)

Lemma get_whispers_eq r σ :
  let topic := args_get_default "topic" "all" r in
  let σ1 := snd (cleanup_old_whispers σ) in
  get_whispers r σ =
    (Ok (200,
         Whispers
           (sort Whisper.created_at true
              (selected topic (records (whispers_json σ1))))
           (isoformat (LAST_UPDATE_TIME σ1))
           (effective_topic topic)),
     load_log WHISPERS_FILE σ1).
Proof.
  intros topic σ1. subst σ1.
  destruct (cleanup_old_whispers_total σ) as (b & σ1 & E).
  unfold get_whispers, try_except, bind. fold topic. rewrite E. cbn [snd].
  rewrite load_data_eq. unfold selected, effective_topic.
  change (contents WHISPERS_FILE σ1) with (whispers_json σ1).
  destruct (str_truthy topic && negb (topic =? "all")%string);
    unfold read_LAST_UPDATE_TIME, ret; now rewrite load_log_LAST.
Qed.

(** For a topic of [ALL_TOPICS] the listing holds the stored posts of
    that topic and no others, newest first, with the shared timestamp and
    the topic. *)
Lemma get_whispers_recognized r σ :
  let topic := args_get_default "topic" "all" r in
  let σ1 := snd (cleanup_old_whispers σ) in
  in_topics topic = true ->
  exists data σ',
    get_whispers r σ =
      (Ok (200, Whispers data (isoformat (LAST_UPDATE_TIME σ1)) topic), σ') /\
    Forall (fun w => Whisper.get_topic w = topic) data /\
    Permutation data (filter (has_topic topic) (records (whispers_json σ1))) /\
    Sorted (descending Whisper.created_at) data.
Proof.
  intros topic σ1 H. rewrite get_whispers_eq. fold topic σ1.
  unfold selected, effective_topic. rewrite (in_topics_test _ H), H.
  cbn [negb]. eexists _, _. split; [reflexivity|].
  split; [|split].
  - eapply Permutation_Forall; [symmetry; apply sort_perm|].
    apply Forall_forall. intros w Hw. apply filter_In in Hw as [_ Hw].
    now apply String.eqb_eq.
  - apply sort_perm.
  - apply sort_descending.
Qed.

(** Without a topic, with an empty one or with ["all"], the listing
    holds every stored post, newest first. *)
Lemma get_whispers_unfiltered r σ :
  let topic := args_get_default "topic" "all" r in
  let σ1 := snd (cleanup_old_whispers σ) in
  topic = "" \/ topic = "all" ->
  exists data σ',
    get_whispers r σ =
      (Ok (200, Whispers data (isoformat (LAST_UPDATE_TIME σ1)) topic), σ') /\
    Permutation data (records (whispers_json σ1)) /\
    Sorted (descending Whisper.created_at) data.
Proof.
  intros topic σ1 H. rewrite get_whispers_eq. fold topic σ1.
  assert (E : str_truthy topic && negb (topic =? "all")%string = false)
    by (destruct H as [-> | ->]; reflexivity).
  unfold selected, effective_topic. rewrite E.
  eexists _, _. split; [reflexivity|].
  split; [apply sort_perm|apply sort_descending].
Qed.

(** C6, where the code departs from it.  For a topic it does not know,
    [get_whispers] sets the topic to ["all"] and filters all the same:
    the listing holds the posts whose topic is the string ["all"], so no
    post with a topic of [ALL_TOPICS] is listed. *)
Theorem get_whispers_unrecognized_topic_filters r σ :
  unrecognized (args_get_default "topic" "all" r) ->
  exists data last σ',
    get_whispers r σ = (Ok (200, Whispers data last "all"), σ') /\
    Permutation data
      (filter (has_topic "all")
         (records (whispers_json (snd (cleanup_old_whispers σ))))) /\
    (forall w, In w data -> in_topics (Whisper.get_topic w) = false).
Proof.
  intros H. apply unrecognized_test in H as [H1 H2].
  rewrite get_whispers_eq. unfold selected, effective_topic.
  rewrite H1, H2. eexists _, _, _. split; [reflexivity|].
  split; [apply sort_perm|].
  intros w Hw. apply (Permutation_in _ (sort_perm _ _ _)) in Hw.
  apply filter_In in Hw as [_ Hw]. apply String.eqb_eq in Hw.
  now rewrite Hw.
Qed.

End Handlers.

(** * The program on concrete requests

    From here on the date library is [Iso8601.lib]. *)

Example scenario_first_post :
  create_whisper
    (Scenario.POST [("content", JStr " hello "); ("topic", JStr "music")])
    Scenario.fresh =
  (Ok (200, WhisperData Scenario.hello), Scenario.one_post).
Proof. reflexivity. Qed.

Example scenario_unknown_topic_is_random :
  fst (create_whisper
         (Scenario.POST
            [("content", JStr "x"); ("topic", JStr "not-a-real-topic")])
         Scenario.one_post) =
  Ok (200,
      WhisperData
        (Whisper.mk 2 "x" (Some "random") (JBool false) 0
           "2024-01-02T03:04:07.123456+00:00")).
Proof. reflexivity. Qed.

Example scenario_list_music :
  fst (get_whispers (Scenario.GET [("topic", "music")]) Scenario.one_post) =
  Ok (200,
      Whispers [Scenario.hello] "2024-01-02T03:04:06.123456+00:00" "music").
Proof. reflexivity. Qed.

(** The cached count of [Scenario.hello] is 0; two replies are stored. *)
Lemma get_whisper_counts_replies_witness :
  get_whisper 1 Scenario.two_posts =
    (Ok (200, WhisperData (Whisper.set_replies_count 2 Scenario.hello)),
     Scenario.two_posts) /\
  Whisper.replies_count (Whisper.set_replies_count 2 Scenario.hello) = 2.
Proof.
  split; [reflexivity|].
  apply (@get_whisper_counts_replies 1 Scenario.two_posts _
           Scenario.two_posts).
  reflexivity.
Defined.


Lemma create_whisper_blank_content_stored_witness :
  exists w,
    fst (create_whisper (Scenario.POST [("content", JStr "   ")])
           Scenario.fresh) = Ok (200, WhisperData w) /\
    Whisper.content w = "" /\
    whispers_json
      (snd (create_whisper (Scenario.POST [("content", JStr "   ")])
              Scenario.fresh)) = Stored ([] ++ [w]).
Proof.
  apply (@create_whisper_blank_content_stored Iso8601.lib
           (Scenario.POST [("content", JStr "   ")]) Scenario.fresh
           [("content", JStr "   ")] "   ");
    try reflexivity.
  discriminate.
Defined.



Lemma load_data_never_raises_witness :
  exists l σ',
    load_data WHISPERS_FILE Scenario.unreadable = (Ok l, σ') /\
    l = [] /\ stdout σ' = ["load_data error: JSONDecodeError"].
Proof.
  destruct (load_data_never_raises WHISPERS_FILE Scenario.unreadable)
    as (l & σ' & E & _ & _ & H).
  destruct (H JSONDecodeError eq_refl) as [-> ->].
  eexists _, _. split; [exact E|]. split; reflexivity.
Defined.




Lemma check_updates_unrecognized_topic_fails_witness :
  unrecognized
    (args_get_default "topic" "all" (Scenario.GET [("topic", "bogus")])) /\
  exists σ',
    check_updates (Scenario.GET [("topic", "bogus")]) Scenario.one_post =
      (Ok (500, Failure "UnboundLocalError"), σ') /\
    same_store Scenario.one_post σ'.
Proof.
  assert (H : unrecognized
                (args_get_default "topic" "all"
                   (Scenario.GET [("topic", "bogus")])))
    by (repeat split; discriminate).
  split; [exact H|].
  exact (@check_updates_unrecognized_topic_fails Iso8601.lib
           (Scenario.GET [("topic", "bogus")]) Scenario.one_post H).
Defined.

Lemma check_updates_unrecognized_topic_no_flag_witness :
  unrecognized
    (args_get_default "topic" "all" (Scenario.GET [("topic", "bogus")])) /\
  ~ reports
      (check_updates (Scenario.GET [("topic", "bogus")]) Scenario.one_post)
      true.
Proof.
  assert (H : unrecognized
                (args_get_default "topic" "all"
                   (Scenario.GET [("topic", "bogus")])))
    by (repeat split; discriminate).
  split; [exact H|].
  exact (@check_updates_unrecognized_topic_no_flag Iso8601.lib
           (Scenario.GET [("topic", "bogus")]) Scenario.one_post H true).
Defined.

Lemma get_whispers_unrecognized_topic_filters_witness :
  unrecognized
    (args_get_default "topic" "all" (Scenario.GET [("topic", "bogus")])) /\
  whispers_json
    (snd (get_whispers (Scenario.GET [("topic", "bogus")])
            Scenario.one_post)) = Stored [Scenario.hello] /\
  exists last σ',
    get_whispers (Scenario.GET [("topic", "bogus")]) Scenario.one_post =
      (Ok (200, Whispers [] last "all"), σ').
Proof.
  assert (H : unrecognized
                (args_get_default "topic" "all"
                   (Scenario.GET [("topic", "bogus")])))
    by (repeat split; discriminate).
  split; [exact H|]. split; [reflexivity|].
  destruct (@get_whispers_unrecognized_topic_filters Iso8601.lib
              (Scenario.GET [("topic", "bogus")]) Scenario.one_post H)
    as (data & last & σ' & E & Hperm & _).
  assert (Hd : data = []) by (apply Permutation_nil; symmetry; exact Hperm).
  exists last, σ'. now rewrite E, Hd.
Defined.

Lemma cleanup_old_whispers_sweeps_witness :
  Forall well_stamped (records (whispers_json Scenario.two_posts)) /\
  fst (cleanup_old_whispers Scenario.two_posts) = Ok true /\
  saves (snd (cleanup_old_whispers Scenario.two_posts)) =
    [SavedReplies [Scenario.r1; Scenario.r3]; SavedWhispers [Scenario.hello]].
Proof.
  assert (H : Forall well_stamped (records (whispers_json Scenario.two_posts)))
    by (repeat constructor; eexists; reflexivity).
  split; [exact H|].
  destruct (@cleanup_old_whispers_sweeps Iso8601.lib Scenario.two_posts H)
    as (Hok & _ & _ & _ & Hsaves).
  split; [exact Hok|].
  destruct Hsaves as (Hs & _); [discriminate|]. exact Hs.
Defined.

(** * More of the program *)

(** ** The store, again *)

Lemma same_store_tick σ : same_store σ (tick σ).
Proof. repeat split. Qed.


Lemma save_log_locked A (f : file A) data σ :
  writable f σ = false ->
  save_log f data σ = write_stdout "save_data error: OSError" σ.
Proof. unfold save_log. now intros ->. Qed.


Lemma save_log_LAST A (f : file A) data σ :
  LAST_UPDATE_TIME (save_log f data σ) =
    if writable f σ then clock σ (ticks σ) else LAST_UPDATE_TIME σ.
Proof. unfold save_log. destruct (writable f σ); [now destruct f|reflexivity]. Qed.



(** ** The sweep, again *)

Section More.
Context {DT : DatetimeLib}.

Lemma sweep_ok_well_stamped cutoff ws filtered deleted x :
  sweep cutoff ws filtered deleted = Ok x -> Forall well_stamped ws.
Proof.
  revert filtered deleted.
  induction ws as [|w ws IH]; intros filtered deleted H; [constructor|].
  simpl in H.
  destruct (fromisoformat (replace_Z (Whisper.created_at w)))
    as [[t|t]|] eqn:E; simpl in H; try discriminate.
  constructor; [now exists t|].
  destruct (cutoff <? t); eapply IH; exact H.
Qed.

Lemma cleanup_old_whispers_raise σ e :
  sweep (clock σ (ticks σ) - timedelta_hours 48)
    (records (whispers_json σ)) [] [] = Raise e ->
  cleanup_old_whispers σ =
    (Ok false,
     write_stdout ("cleanup error: " ++ exn_str e)%string
       (tick (load_log WHISPERS_FILE σ))).
Proof.
  intros H. unfold cleanup_old_whispers, try_except, bind at 1.
  rewrite load_data_eq. unfold bind at 1, datetime_now.
  destruct (load_log_clock WHISPERS_FILE σ) as [-> ->].
  change (contents WHISPERS_FILE σ) with (whispers_json σ).
  unfold bind at 1, lift. rewrite H. reflexivity.
Qed.

(** X2.  [cleanup_old_whispers] never raises.  It answers [True] when
    every stored post has a [created_at] that parses to an aware
    timestamp; one post that does not makes it answer [False], print one
    line and leave the store as it was, the expired posts included. *)
Theorem cleanup_old_whispers_result σ :
  let σ' := snd (cleanup_old_whispers σ) in
  exists b,
    fst (cleanup_old_whispers σ) = Ok b /\
    (b = true <-> Forall well_stamped (records (whispers_json σ))) /\
    (b = false ->
     same_store σ σ' /\
     exists e,
       stdout σ' =
         stdout (load_log WHISPERS_FILE σ) ++
         [("cleanup error: " ++ exn_str e)%string]).
Proof.
  cbv zeta.
  destruct (sweep (clock σ (ticks σ) - timedelta_hours 48)
              (records (whispers_json σ)) [] []) as [x|e] eqn:E.
  - pose proof (sweep_ok_well_stamped _ _ _ _ E) as Hws.
    exists true. split; [|split; [tauto|discriminate]].
    rewrite (@cleanup_old_whispers_eq _ σ Hws).
    now destruct (expire _ _).
  - rewrite (cleanup_old_whispers_raise σ E). exists false.
    split; [reflexivity|]. split.
    + split; [discriminate|]. intros Hws.
      rewrite (sweep_well_stamped _ [] [] Hws) in E. discriminate.
    + intros _. cbn [snd]. split.
      * eapply same_store_trans; [apply (load_log_same_store WHISPERS_FILE)|].
        repeat split.
      * exists e. reflexivity.
Qed.

Lemma keep_all cutoff ws : expire cutoff ws = [] -> keep cutoff ws = ws.
Proof.
  unfold expire, keep. induction ws as [|w ws IH]; simpl; [reflexivity|].
  destruct (created_after cutoff w); simpl; [|discriminate].
  intros H. now rewrite IH.
Qed.

Lemma surviving_nil rs : surviving [] rs = rs.
Proof.
  unfold surviving. induction rs as [|r rs IH]; [reflexivity|].
  simpl in *. now rewrite IH.
Qed.

Lemma keep_or_expire cutoff ws w :
  In w ws -> In w (keep cutoff ws) \/ In w (expire cutoff ws).
Proof.
  intros H. unfold keep, expire. rewrite !filter_In.
  destruct (created_after cutoff w); [left|right]; now split.
Qed.

(** The two files after a sweep over well stamped posts. *)
Lemma cleanup_old_whispers_records σ :
  Forall well_stamped (records (whispers_json σ)) ->
  let whispers := records (whispers_json σ) in
  let cutoff := clock σ (ticks σ) - timedelta_hours 48 in
  let σ' := snd (cleanup_old_whispers σ) in
  records (whispers_json σ') =
    (if whispers_writable σ then keep cutoff whispers else whispers) /\
  records (replies_json σ') =
    (if replies_writable σ
     then surviving (expire cutoff whispers) (records (replies_json σ))
     else records (replies_json σ)).
Proof.
  intros H whispers cutoff σ'. subst σ'.
  rewrite (@cleanup_old_whispers_eq _ σ H). fold whispers cutoff.
  destruct (expire cutoff whispers) as [|w0 ex] eqn:E.
  - cbn [snd tick whispers_json replies_json].
    rewrite load_log_whispers, load_log_replies, surviving_nil.
    fold whispers. rewrite (keep_all _ _ E).
    now destruct (whispers_writable σ), (replies_writable σ).
  - cbn [snd].
    rewrite save_log_whispers_json_W, save_log_replies_json_W,
      save_log_whispers_json_R, save_log_replies_json_R.
    destruct (save_log_writable REPLIES_FILE
                (surviving (w0 :: ex) (records (replies_json σ)))
                (load_log REPLIES_FILE (tick (load_log WHISPERS_FILE σ))))
      as [-> _].
    rewrite load_log_whispers_writable, load_log_replies_writable,
      load_log_whispers, load_log_replies.
    cbn [tick whispers_writable replies_writable whispers_json replies_json].
    rewrite load_log_whispers_writable, load_log_replies_writable,
      load_log_whispers, load_log_replies.
    fold whispers.
    now destruct (whispers_writable σ), (replies_writable σ).
Qed.

(** X3.  The sweep cascades.  With both files writable, after a sweep no
    stored reply belongs to an expired post, a store in which every
    reply belongs to a stored post is still one, and, the ids of the
    posts being distinct, every reply to a kept post is still stored. *)
Theorem cleanup_old_whispers_cascades σ :
  Forall well_stamped (records (whispers_json σ)) ->
  whispers_writable σ = true ->
  replies_writable σ = true ->
  let whispers := records (whispers_json σ) in
  let cutoff := clock σ (ticks σ) - timedelta_hours 48 in
  let σ' := snd (cleanup_old_whispers σ) in
  (forall r w,
     In r (records (replies_json σ')) ->
     In w (expire cutoff whispers) ->
     Reply.whisper_id r <> Whisper.id w) /\
  (replies_attached σ -> replies_attached σ') /\
  (NoDup (map Whisper.id whispers) ->
   forall r w,
     In r (records (replies_json σ)) ->
     In w (records (whispers_json σ')) ->
     Reply.whisper_id r = Whisper.id w ->
     In r (records (replies_json σ'))).
Proof.
  intros H Hw Hr whispers cutoff σ'.
  destruct (cleanup_old_whispers_records σ H) as [Ews Ers].
  fold whispers cutoff σ' in Ews, Ers. rewrite Hw in Ews. rewrite Hr in Ers.
  split; [|split].
  - intros r w Hin Hex E. rewrite Ers in Hin.
    apply surviving_spec in Hin as [_ Hin]. apply Hin.
    rewrite E. now apply in_map.
  - intros Hatt r Hin. rewrite Ers in Hin. rewrite Ews.
    apply surviving_spec in Hin as [Hin Hno].
    apply Hatt, in_map_iff in Hin as (w & E & Hin).
    destruct (keep_or_expire cutoff _ _ Hin) as [Hk|Hx].
    + rewrite <- E. now apply in_map.
    + exfalso. apply Hno. rewrite <- E. now apply in_map.
  - intros Hnd r w Hin Hk E. rewrite Ers. rewrite Ews in Hk.
    apply surviving_spec. split; [assumption|].
    intros Hx. apply in_map_iff in Hx as (x & Ex & Hx).
    assert (x = w).
    { unfold keep in Hk. unfold expire in Hx.
      apply filter_In in Hk as [Hk _]. apply filter_In in Hx as [Hx' _].
      clear - Hnd Hk Hx' Ex E. fold whispers in Hk, Hx'.
      induction whispers as [|y ys IH]; [destruct Hk|].
      simpl in Hnd. inversion Hnd as [|? ? Hny Hnd']; subst.
      destruct Hk as [->|Hk], Hx' as [->|Hx'].
      - reflexivity.
      - exfalso. apply Hny. rewrite <- E, <- Ex. now apply in_map.
      - exfalso. apply Hny. rewrite Ex, E. now apply in_map.
      - now apply IH. }
    subst x. unfold keep in Hk. unfold expire in Hx.
    apply filter_In in Hk as [_ Hk]. apply filter_In in Hx as [_ Hx].
    rewrite Hk in Hx. discriminate.
Qed.

(** X4.  A listing shows no expired post: with whispers.json writable,
    every post that [get_whispers] returns was created after the cutoff
    of the sweep it starts with. *)
Theorem get_whispers_lists_no_expired r σ data last topic σ' :
  Forall well_stamped (records (whispers_json σ)) ->
  whispers_writable σ = true ->
  get_whispers r σ = (Ok (200, Whispers data last topic), σ') ->
  Forall
    (fun w => created_after (clock σ (ticks σ) - timedelta_hours 48) w = true)
    data.
Proof.
  intros H Hw E. rewrite get_whispers_eq in E. injection E as <- _ _ _.
  destruct (cleanup_old_whispers_records σ H) as [-> _]. rewrite Hw.
  apply Forall_forall. intros w Hin.
  apply (Permutation_in _ (sort_perm _ _ _)) in Hin.
  assert (In w (keep (clock σ (ticks σ) - timedelta_hours 48)
                  (records (whispers_json σ)))) as Hk.
  { unfold selected in Hin.
    destruct (str_truthy _ && _); [|exact Hin].
    now apply filter_In in Hin as [Hin _]. }
  unfold keep in Hk. now apply filter_In in Hk as [_ Hk].
Qed.

(** ** The replies of a post *)

Lemma insert_ascending A (key : A -> string) (x : A) l :
  Sorted (ascending key) l -> Sorted (ascending key) (insert key false x l).
Proof.
  induction 1 as [|y l Hs IH Hhd]; simpl; [repeat constructor|].
  destruct (String.ltb (key y) (key x)) eqn:E.
  - constructor; [exact IH|].
    apply insert_hd; [|exact Hhd]. now apply ltb_asym.
  - constructor; [now constructor|]. now constructor.
Qed.

Lemma sort_ascending A (key : A -> string) (l : list A) :
  Sorted (ascending key) (sort key false l).
Proof.
  induction l as [|x l IH]; simpl; [constructor|].
  now apply insert_ascending.
Qed.

Lemma get_replies_eq id σ :
  get_replies id σ =
    (Ok (200,
         Replies
           (sort Reply.created_at false
              (filter (fun r => Reply.whisper_id r =? id)
                 (records (replies_json σ))))),
     load_log REPLIES_FILE σ).
Proof. unfold get_replies, bind. now rewrite load_data_eq. Qed.

(** X5.  [get_replies] answers 200 for every id, whether a post has it
    or not: the response holds the stored replies with this [whisper_id]
    and no others, oldest first, and the store is as before. *)
Theorem get_replies_lists_replies id σ :
  exists data,
    fst (get_replies id σ) = Ok (200, Replies data) /\
    Permutation data
      (filter (fun r => Reply.whisper_id r =? id) (records (replies_json σ))) /\
    (forall r, In r data <->
       In r (records (replies_json σ)) /\ Reply.whisper_id r = id) /\
    Sorted (ascending Reply.created_at) data /\
    same_store σ (snd (get_replies id σ)).
Proof.
  rewrite get_replies_eq. eexists. split; [reflexivity|].
  split; [apply sort_perm|]. split; [|split].
  - intros r. split.
    + intros Hin. apply (Permutation_in _ (sort_perm _ _ _)) in Hin.
      apply filter_In in Hin as [Hin E]. split; [exact Hin|].
      now apply Z.eqb_eq.
    + intros [Hin E].
      apply (Permutation_in _ (Permutation_sym (sort_perm _ _ _))).
      apply filter_In. split; [exact Hin|]. now apply Z.eqb_eq.
  - apply sort_ascending.
  - apply load_log_same_store.
Qed.

(** ** Creating a post, again *)

Lemma validate_topic_in v : in_topics (validate_topic v) = true.
Proof.
  destruct v as [ |b|n|s|l|d]; try reflexivity. simpl.
  destruct (in_topics s) eqn:E; [exact E|reflexivity].
Qed.

Lemma create_whisper_not_string r σ d c :
  body r = Some (JDict d) ->
  assoc "content" d = Some c ->
  truthy c = true ->
  (forall s, c <> JStr s) ->
  create_whisper r σ = (Raise AttributeError, load_log WHISPERS_FILE σ).
Proof.
  intros Hb Hc Ht Hn. unfold create_whisper, get_json, bind, lift.
  rewrite Hb. unfold ret at 1.
  rewrite (content_missing_dict _ Hc Ht), load_data_eq.
  unfold dict_get, py_strip. rewrite Hc.
  destruct (assoc "topic" d);
    destruct c as [ |b|n|s|l|d']; try reflexivity; now destruct (Hn s).
Qed.

Lemma create_whisper_content_raises r σ data e :
  body r = Some data ->
  content_missing data = Raise e ->
  create_whisper r σ = (Raise e, σ).
Proof.
  intros Hb Hm. unfold create_whisper, get_json, bind, lift.
  rewrite Hb. unfold ret at 1. now rewrite Hm.
Qed.

(** Every outcome of [create_whisper]: the post is appended and saved,
    or the store is as before. *)
Lemma create_whisper_store r σ :
  let whispers := records (whispers_json σ) in
  let σ' := snd (create_whisper r σ) in
  (exists w,
     fst (create_whisper r σ) = Ok (200, WhisperData w) /\
     Whisper.id w = max_default (map Whisper.id whispers) 0 + 1 /\
     in_topics (Whisper.get_topic w) = true /\
     whispers_json σ' = Stored (whispers ++ [w]) /\
     replies_json σ' = replies_json σ) \/
  (succeeded (fst (create_whisper r σ)) = false /\ same_store σ σ').
Proof.
  intros whispers σ'. subst σ'.
  destruct (body r) as [data|] eqn:Hb.
  2:{ right. unfold create_whisper, get_json, bind. rewrite Hb.
      split; [reflexivity|apply same_store_refl]. }
  destruct (content_missing data) as [[|]|e] eqn:Hm.
  - right. rewrite (create_whisper_content_missing r σ Hb Hm).
    split; [reflexivity|apply same_store_refl].
  - apply content_missing_false in Hm as (d & c & -> & Hc & Ht).
    assert (Hcase : (exists s, c = JStr s) \/ (forall s, c <> JStr s))
      by (destruct c; try (right; discriminate); left; eauto).
    destruct Hcase as [[s ->]|Hn].
    + rewrite (create_whisper_eq r σ Hb Hc (truthy_JStr Ht)).
      fold whispers. cbn [fst snd].
      destruct (whispers_writable σ) eqn:Hw.
      * left. eexists. split; [reflexivity|]. split; [reflexivity|].
        split; [apply validate_topic_in|].
        rewrite save_log_whispers_json_W, save_log_replies_json_W.
        cbn [tick whispers_writable replies_json].
        now rewrite load_log_whispers_writable, Hw, load_log_replies.
      * right. split; [reflexivity|]. rewrite save_log_locked.
        -- eapply same_store_trans;
             [apply (load_log_same_store WHISPERS_FILE)|]. repeat split.
        -- cbn [writable tick whispers_writable].
           now rewrite load_log_whispers_writable.
    + right. rewrite (create_whisper_not_string r σ Hb Hc Ht Hn).
      split; [reflexivity|apply load_log_same_store].
  - right. rewrite (create_whisper_content_raises r σ Hb Hm).
    split; [reflexivity|apply same_store_refl].
Qed.

(** X6.  A created post carries a topic of [ALL_TOPICS]: the submitted
    one when it is one of them, ["random"] when it is missing, not a
    string or any other string. *)
Theorem create_whisper_coerces_topic r σ w σ' :
  create_whisper r σ = (Ok (200, WhisperData w), σ') ->
  exists d t,
    body r = Some (JDict d) /\
    Whisper.topic w = Some t /\
    in_topics t = true /\
    (forall s, assoc "topic" d = Some (JStr s) -> in_topics s = true -> t = s) /\
    ((forall s, assoc "topic" d = Some (JStr s) -> in_topics s = false) ->
     t = "random").
Proof.
  intros H. destruct (create_whisper_inv _ _ H) as (d & s & Hb & Hc & Hs).
  rewrite (create_whisper_eq _ σ Hb Hc Hs) in H.
  destruct (whispers_writable σ); [|discriminate].
  injection H as <- _. eexists d, _. split; [exact Hb|].
  split; [reflexivity|]. split; [apply validate_topic_in|].
  unfold field. split.
  - intros t Ht Hin. rewrite Ht. simpl. now rewrite Hin.
  - intros Hbad. destruct (assoc "topic" d) as [[ |b|n|t|l|d']|];
      try reflexivity.
    simpl. now rewrite (Hbad t eq_refl).
Qed.


(** ** Creating a reply, again *)

Lemma create_reply_content_missing id r σ data :
  body r = Some data ->
  content_missing data = Ok true ->
  create_reply id r σ = (Ok (400, Failure "Content required"), σ).
Proof.
  intros Hb Hm. unfold create_reply, get_json, bind, lift.
  rewrite Hb. unfold ret at 1. now rewrite Hm.
Qed.

Lemma create_reply_content_raises id r σ data e :
  body r = Some data ->
  content_missing data = Raise e ->
  create_reply id r σ = (Raise e, σ).
Proof.
  intros Hb Hm. unfold create_reply, get_json, bind, lift.
  rewrite Hb. unfold ret at 1. now rewrite Hm.
Qed.

Lemma create_reply_no_body id r σ :
  body r = None -> create_reply id r σ = (Raise BadRequest, σ).
Proof.
  intros Hb. unfold create_reply, get_json, bind. now rewrite Hb.
Qed.

Lemma create_reply_not_string id r σ d c w0 :
  body r = Some (JDict d) ->
  assoc "content" d = Some c ->
  truthy c = true ->
  (forall s, c <> JStr s) ->
  find_whisper id (records (whispers_json σ)) = Some w0 ->
  create_reply id r σ =
    (Raise AttributeError,
     load_log REPLIES_FILE (load_log WHISPERS_FILE σ)).
Proof.
  intros Hb Hc Ht Hn Hf. unfold create_reply, get_json, bind, lift.
  rewrite Hb. unfold ret at 1.
  rewrite (content_missing_dict _ Hc Ht), load_data_eq.
  change (contents WHISPERS_FILE σ) with (whispers_json σ).
  rewrite Hf, load_data_eq. unfold dict_get, py_strip. rewrite Hc.
  destruct c as [ |b|n|s|l|d']; try reflexivity; now destruct (Hn s).
Qed.

Lemma assign_replies_count_ids id n ws :
  map Whisper.id (assign_replies_count id n ws) = map Whisper.id ws.
Proof.
  induction ws as [|w ws IH]; simpl; [reflexivity|].
  destruct (Whisper.id w =? id); simpl; [reflexivity|now rewrite IH].
Qed.

Lemma assign_replies_count_others id n ws w :
  In w ws -> Whisper.id w <> id -> In w (assign_replies_count id n ws).
Proof.
  induction ws as [|y ws IH]; simpl; [tauto|].
  intros [->|Hin] Hne.
  - destruct (Z.eqb_spec (Whisper.id w) id); [contradiction|now left].
  - destruct (Whisper.id y =? id); right; auto.
Qed.

Lemma assign_replies_count_Forall (P : whisper -> Prop) id n ws :
  (forall w, P w -> P (Whisper.set_replies_count n w)) ->
  Forall P ws -> Forall P (assign_replies_count id n ws).
Proof.
  intros HP H. induction H as [|w ws Hw H IH]; simpl; [constructor|].
  destruct (Whisper.id w =? id); constructor; auto.
Qed.

(** Every outcome of [create_reply]: the reply is appended and saved,
    and the count of its post with it when whispers.json can be
    written, or the store is as before. *)
Lemma create_reply_store id r σ :
  let whispers := records (whispers_json σ) in
  let replies := records (replies_json σ) in
  let σ' := snd (create_reply id r σ) in
  (exists rep w0,
     fst (create_reply id r σ) = Ok (200, ReplyData rep) /\
     find_whisper id whispers = Some w0 /\
     Reply.id rep = max_default (map Reply.id replies) 0 + 1 /\
     Reply.whisper_id rep = id /\
     replies_json σ' = Stored (replies ++ [rep]) /\
     whispers_json σ' =
       (if whispers_writable σ
        then Stored (assign_replies_count id
                       (count_replies id (replies ++ [rep])) whispers)
        else whispers_json σ)) \/
  (succeeded (fst (create_reply id r σ)) = false /\ same_store σ σ').
Proof.
  intros whispers replies σ'. subst σ'.
  destruct (body r) as [data|] eqn:Hb.
  2:{ right. rewrite (create_reply_no_body id r σ Hb).
      split; [reflexivity|apply same_store_refl]. }
  destruct (content_missing data) as [[|]|e] eqn:Hm.
  - right. rewrite (create_reply_content_missing id r σ Hb Hm).
    split; [reflexivity|apply same_store_refl].
  - destruct (find_whisper id whispers) as [w0|] eqn:Hf.
    2:{ right. rewrite (create_reply_not_found id r σ Hb Hm Hf).
        split; [reflexivity|apply load_log_same_store]. }
    apply content_missing_false in Hm as (d & c & -> & Hc & Ht).
    assert (Hcase : (exists s, c = JStr s) \/ (forall s, c <> JStr s))
      by (destruct c; try (right; discriminate); left; eauto).
    destruct Hcase as [[s ->]|Hn].
    + rewrite (create_reply_eq id r σ Hb Hc (truthy_JStr Ht) Hf).
      fold whispers replies.
      destruct (replies_writable σ) eqn:Hw; cbn [fst snd].
      * left. eexists _, w0. split; [reflexivity|]. split; [reflexivity|].
        split; [reflexivity|]. split; [reflexivity|].
        rewrite save_log_replies_json_W, save_log_replies_json_R,
          save_log_whispers_json_W, save_log_whispers_json_R.
        match goal with
        | |- context [save_log REPLIES_FILE ?x ?s] =>
            destruct (save_log_writable REPLIES_FILE x s) as [-> _]
        end.
        cbn [tick whispers_writable replies_writable whispers_json].
        rewrite !load_log_replies_writable, !load_log_whispers_writable,
          !load_log_whispers, Hw.
        split; reflexivity.
      * right. split; [reflexivity|]. rewrite save_log_locked.
        -- eapply same_store_trans;
             [apply (load_log_same_store WHISPERS_FILE)|].
           eapply same_store_trans;
             [apply (load_log_same_store REPLIES_FILE)|]. repeat split.
        -- cbn [writable tick replies_writable].
           now rewrite !load_log_replies_writable.
    + right. rewrite (create_reply_not_string id r σ Hb Hc Ht Hn Hf).
      split; [reflexivity|].
      eapply same_store_trans; apply load_log_same_store.
  - right. rewrite (create_reply_content_raises id r σ Hb Hm).
    split; [reflexivity|apply same_store_refl].
Qed.


(** X9.  A created reply belongs to a post that is stored at that time
    and is appended to the stored replies.  When whispers.json can be
    written, the post then carries the number of its stored replies, and
    the other posts and all the ids are as before; when it cannot, the
    answer is 200 all the same and the posts stay as they were. *)
Theorem create_reply_effect id r σ rep σ' :
  create_reply id r σ = (Ok (200, ReplyData rep), σ') ->
  let whispers := records (whispers_json σ) in
  let whispers' := records (whispers_json σ') in
  Reply.whisper_id rep = id /\
  In id (map Whisper.id whispers) /\
  replies_json σ' = Stored (records (replies_json σ) ++ [rep]) /\
  (if whispers_writable σ then
     map Whisper.id whispers' = map Whisper.id whispers /\
     (forall w, In w whispers -> Whisper.id w <> id -> In w whispers') /\
     exists w',
       find_whisper id whispers' = Some w' /\
       Whisper.replies_count w' =
         count_replies id (records (replies_json σ'))
   else whispers_json σ' = whispers_json σ).
Proof.
  intros H. cbv zeta.
  destruct (create_reply_store id r σ)
    as [(rep' & w0 & E & Hf & _ & Hid & Hr & Hw)|[E _]];
    rewrite H in *; cbn [fst snd] in *; [|discriminate].
  injection E as <-. split; [exact Hid|].
  split.
  { apply find_whisper_id in Hf as [Hin <-]. now apply in_map. }
  split; [exact Hr|].
  destruct (whispers_writable σ); [|exact Hw].
  rewrite Hw, Hr. cbn [records].
  split; [apply assign_replies_count_ids|].
  split; [intros w; apply assign_replies_count_others|].
  rewrite find_whisper_assign, Hf. eexists. split; reflexivity.
Qed.

(** ** Reading *)

Lemma topic_cases topic :
  in_topics topic = true \/ topic = "" \/ topic = "all" \/ unrecognized topic.
Proof.
  destruct (in_topics topic) eqn:E; [now left|right].
  destruct (String.eqb_spec topic ""); [now left|right].
  destruct (String.eqb_spec topic "all"); [now left|right].
  now repeat split.
Qed.

Lemma check_updates_world r σ :
  snd (check_updates r σ) = load_log WHISPERS_FILE σ.
Proof.
  destruct (topic_cases (args_get_default "topic" "all" r))
    as [H|[H|[H|H]]].
  - now rewrite (check_updates_recognized r σ H).
  - now rewrite (check_updates_unfiltered r σ (or_introl H)).
  - now rewrite (check_updates_unfiltered r σ (or_intror H)).
  - now rewrite (check_updates_unrecognized r σ H).
Qed.

(** X10.  [check_updates], [get_whisper], [get_replies] and
    [get_topics] never write: whatever the request, the files, the
    shared timestamp and the clock are as before. *)
Theorem readers_keep_store (r : request) (id : Z) σ :
  let unchanged σ' := same_store σ σ' /\ ticks σ' = ticks σ in
  unchanged (snd (check_updates r σ)) /\
  unchanged (snd (get_whisper id σ)) /\
  unchanged (snd (get_replies id σ)) /\
  unchanged (snd (get_topics σ)).
Proof.
  cbv zeta. rewrite check_updates_world, get_whisper_eq, get_replies_eq.
  repeat split;
    try apply load_log_same_store; try apply load_log_clock;
    destruct (find_whisper id (records (whispers_json σ))); cbn [snd];
    rewrite ?load_log_whispers, ?load_log_replies, ?load_log_saves,
      ?load_log_LAST;
    try reflexivity;
    repeat (rewrite (proj2 (load_log_clock _ _))); reflexivity.
Qed.

Lemma data_changed_false last_update last :
  data_changed last_update last = false <->
  exists s t,
    last_update = Some s /\ s <> "" /\
    fromisoformat (replace_Z s) = Some (Aware t) /\ last <= t.
Proof.
  unfold data_changed, str_truthy. split.
  - destruct last_update as [s|]; [|discriminate].
    destruct (String.eqb_spec s "") as [->|Hs]; [discriminate|]. cbn [negb].
    destruct (fromisoformat (replace_Z s)) as [[t|t]|] eqn:E;
      try discriminate.
    simpl. intros H. exists s, t. apply Z.ltb_ge in H. auto.
  - intros (s & t & -> & Hs & -> & Hle).
    destruct (String.eqb_spec s ""); [contradiction|].
    simpl. now apply Z.ltb_ge.
Qed.

Lemma check_updates_answer r σ stale last total topic σ' :
  check_updates r σ = (Ok (200, Updates stale last total topic), σ') ->
  stale =
    data_changed (args_get "last_update" (args r)) (LAST_UPDATE_TIME σ) /\
  last = isoformat (LAST_UPDATE_TIME σ) /\
  topic = args_get_default "topic" "all" r.
Proof.
  destruct (topic_cases (args_get_default "topic" "all" r))
    as [H|[H|[H|H]]].
  - rewrite (check_updates_recognized r σ H). intros E. now injection E.
  - rewrite (check_updates_unfiltered r σ (or_introl H)).
    intros E. now injection E.
  - rewrite (check_updates_unfiltered r σ (or_intror H)).
    intros E. now injection E.
  - rewrite (check_updates_unrecognized r σ H). discriminate.
Qed.

(** X11.  When [check_updates] answers, it reports no update exactly
    when the client sent a timestamp that is not empty, parses to an
    aware value and is not before the shared one: a timestamp from the
    future passes for fresh as well.  The response carries the shared
    timestamp and the topic as sent. *)
Theorem check_updates_flag r σ stale last total topic σ' :
  check_updates r σ = (Ok (200, Updates stale last total topic), σ') ->
  (stale = false <->
   exists s t,
     args_get "last_update" (args r) = Some s /\ s <> "" /\
     fromisoformat (replace_Z s) = Some (Aware t) /\
     LAST_UPDATE_TIME σ <= t) /\
  last = isoformat (LAST_UPDATE_TIME σ) /\
  topic = args_get_default "topic" "all" r.
Proof.
  intros H. apply check_updates_answer in H as (-> & -> & ->).
  split; [apply data_changed_false|split; reflexivity].
Qed.

(** X12.  A created post makes the clients stale: [LAST_UPDATE_TIME]
    becomes the reading of the clock that [save_data] takes, and a
    client whose timestamp is before that reading is told of an update
    by the next [check_updates] that answers. *)
Theorem create_whisper_makes_stale r σ w σ' q s t :
  create_whisper r σ = (Ok (200, WhisperData w), σ') ->
  args_get "last_update" (args q) = Some s ->
  fromisoformat (replace_Z s) = Some (Aware t) ->
  t < clock σ (S (ticks σ)) ->
  (let topic := args_get_default "topic" "all" q in
   in_topics topic = true \/ topic = "" \/ topic = "all") ->
  LAST_UPDATE_TIME σ' = clock σ (S (ticks σ)) /\
  reports (check_updates q σ') true.
Proof.
  intros H Hs Ht Hlt Htopic.
  destruct (create_whisper_inv _ _ H) as (d & c & Hb & Hc & Hne).
  rewrite (create_whisper_eq _ σ Hb Hc Hne) in H.
  destruct (whispers_writable σ) eqn:Hw; [|discriminate].
  injection H as _ Hσ.
  assert (HL : LAST_UPDATE_TIME σ' = clock σ (S (ticks σ))).
  { rewrite <- Hσ, save_log_LAST.
    cbn [writable tick whispers_writable clock ticks].
    rewrite load_log_whispers_writable, Hw.
    now destruct (load_log_clock WHISPERS_FILE σ) as [-> ->]. }
  split; [exact HL|].
  pose proof (check_updates_staleness q σ' Htopic) as Hrep.
  rewrite Hs, HL, (data_changed_older _ Ht Hlt) in Hrep. exact Hrep.
Qed.

(** X13.  After a listing, [check_updates] on the same topic agrees with
    it: it answers with the same [last_update] and topic and with the
    number of listed posts, and a client that sends the [last_update] of
    the listing back is told that nothing changed, provided the date
    library reads that string back as the timestamp. *)
Theorem check_updates_agrees_with_listing r σ data last topic σ' :
  get_whispers r σ = (Ok (200, Whispers data last topic), σ') ->
  (let t := args_get_default "topic" "all" r in
   in_topics t = true \/ t = "" \/ t = "all") ->
  (exists stale,
     fst (check_updates r σ') =
       Ok (200, Updates stale last (Z.of_nat (List.length data)) topic)) /\
  (forall q,
     args q = [("last_update", last); ("topic", topic)] ->
     last <> "" ->
     fromisoformat (replace_Z last) = Some (Aware (LAST_UPDATE_TIME σ')) ->
     fst (check_updates q σ') =
       Ok (200, Updates false last (Z.of_nat (List.length data)) topic)).
Proof.
  intros H Htopic. cbv zeta in Htopic.
  rewrite get_whispers_eq in H. injection H as Hdata Hlast Htop Hσ.
  set (σ1 := snd (cleanup_old_whispers σ)) in *.
  set (t := args_get_default "topic" "all" r) in *.
  assert (HL : LAST_UPDATE_TIME σ' = LAST_UPDATE_TIME σ1)
    by (rewrite <- Hσ; apply load_log_LAST).
  assert (Hws : whispers_json σ' = whispers_json σ1)
    by (rewrite <- Hσ; apply load_log_whispers).
  assert (Hlen : forall q,
            args_get_default "topic" "all" q = t ->
            exists stale',
              stale' = data_changed (args_get "last_update" (args q))
                         (LAST_UPDATE_TIME σ') /\
              fst (check_updates q σ') =
                Ok (200, Updates stale' last (Z.of_nat (List.length data))
                           topic)).
  { intros q Hq. eexists. split; [reflexivity|].
    rewrite <- Hdata, <- Hlast, <- Htop, <- HL.
    rewrite (Permutation_length (sort_perm _ _ _)).
    unfold selected, effective_topic. rewrite <- Hws.
    destruct Htopic as [Hin|Hnone].
    - rewrite (check_updates_recognized q σ'); rewrite Hq; [|exact Hin].
      now rewrite (in_topics_test _ Hin), Hin.
    - rewrite (check_updates_unfiltered q σ'); rewrite Hq; [|exact Hnone].
      now destruct Hnone as [-> | ->]. }
  split.
  - destruct (Hlen r eq_refl) as (stale & _ & E). now exists stale.
  - intros q Hq Hne Hparse.
    assert (Hqt : args_get_default "topic" "all" q = t).
    { unfold args_get_default. rewrite Hq. simpl. rewrite <- Htop.
      unfold effective_topic.
      destruct Htopic as [Hin|Hnone].
      - now rewrite (in_topics_test _ Hin), Hin.
      - now destruct Hnone as [-> | ->]. }
    destruct (Hlen q Hqt) as (stale & Hst & E). rewrite E.
    assert (Hlu : args_get "last_update" (args q) = Some last)
      by (rewrite Hq; reflexivity).
    rewrite Hlu, (data_changed_equal Hne Hparse) in Hst. now rewrite Hst.
Qed.

(** ** What every call keeps *)

Lemma filter_true A (l : list A) : filter (fun _ => true) l = l.
Proof. induction l as [|x l IH]; simpl; [reflexivity|now rewrite IH]. Qed.

Lemma NoDup_map_filter A B (f : A -> B) (p : A -> bool) l :
  NoDup (map f l) -> NoDup (map f (filter p l)).
Proof.
  induction l as [|x l IH]; simpl; [trivial|].
  intros H. inversion H as [|? ? Hnot Hnd]; subst.
  destruct (p x); simpl; [|now apply IH].
  constructor; [|now apply IH].
  intros Hin. apply Hnot. apply in_map_iff in Hin as (y & E & Hy).
  apply filter_In in Hy as [Hy _]. rewrite <- E. now apply in_map.
Qed.

Lemma Forall_filter_keeps A (P : A -> Prop) (p : A -> bool) l :
  Forall P l -> Forall P (filter p l).
Proof.
  intros H. apply Forall_forall. intros x Hx.
  apply filter_In in Hx as [Hx _].
  now apply (proj1 (Forall_forall P l) H).
Qed.

Lemma max_default_positive l : Forall (fun i => 1 <= i) l -> 1 <= max_default l 0 + 1.
Proof.
  destruct l as [|x l]; [simpl; lia|]. intros H.
  pose proof (@max_default_ge (x :: l) 0 x (or_introl eq_refl)).
  inversion H; subst. lia.
Qed.

Lemma NoDup_snoc_max l : NoDup l -> NoDup (l ++ [max_default l 0 + 1]).
Proof.
  intros H. apply NoDup_app; [exact H|repeat constructor; intros []|].
  intros x Hx [E|[]]. pose proof (max_default_ge l 0 x Hx). lia.
Qed.

Lemma cleanup_old_whispers_filters σ :
  exists p q,
    records (whispers_json (snd (cleanup_old_whispers σ))) =
      filter p (records (whispers_json σ)) /\
    records (replies_json (snd (cleanup_old_whispers σ))) =
      filter q (records (replies_json σ)).
Proof.
  destruct (sweep (clock σ (ticks σ) - timedelta_hours 48)
              (records (whispers_json σ)) [] []) as [x|e] eqn:E.
  - pose proof (sweep_ok_well_stamped _ _ _ _ E) as Hws.
    destruct (cleanup_old_whispers_records σ Hws) as [-> ->].
    exists (if whispers_writable σ
            then created_after (clock σ (ticks σ) - timedelta_hours 48)
            else fun _ => true).
    exists (if replies_writable σ
            then fun r =>
                   not_in (Reply.whisper_id r)
                     (map Whisper.id
                        (expire (clock σ (ticks σ) - timedelta_hours 48)
                           (records (whispers_json σ))))
            else fun _ => true).
    destruct (whispers_writable σ), (replies_writable σ);
      rewrite ?filter_true; split; reflexivity.
  - rewrite (cleanup_old_whispers_raise σ E). cbn [snd].
    exists (fun _ => true), (fun _ => true). rewrite !filter_true.
    cbn [write_stdout tick whispers_json replies_json].
    now rewrite load_log_whispers, load_log_replies.
Qed.

Lemma kept_same_store σ σ' :
  same_store σ σ' -> kept_by_calls σ -> kept_by_calls σ'.
Proof.
  unfold kept_by_calls, well_formed, topics_valid.
  intros (-> & -> & _). trivial.
Qed.

Lemma kept_filter σ σ' p q :
  records (whispers_json σ') = filter p (records (whispers_json σ)) ->
  records (replies_json σ') = filter q (records (replies_json σ)) ->
  kept_by_calls σ -> kept_by_calls σ'.
Proof.
  unfold kept_by_calls, well_formed, topics_valid.
  intros -> -> ((H1 & H2 & H3 & H4) & H5).
  repeat split;
    auto using NoDup_map_filter, Forall_filter_keeps.
Qed.

Lemma after_keeps c σ : kept_by_calls σ -> kept_by_calls (after c σ).
Proof.
  intros H. destruct c as [ |r|r|id|r|id|id r| ]; cbn [after].
  - destruct (cleanup_old_whispers_filters σ) as (p & q & Hp & Hq).
    eapply kept_filter; [exact Hp|exact Hq|exact H].
  - rewrite get_whispers_eq. cbn [snd].
    destruct (cleanup_old_whispers_filters σ) as (p & q & Hp & Hq).
    eapply kept_filter with (p := p) (q := q); [| |exact H].
    + now rewrite load_log_whispers.
    + now rewrite load_log_replies.
  - eapply kept_same_store; [|exact H].
    rewrite check_updates_world. apply load_log_same_store.
  - eapply kept_same_store; [|exact H].
    rewrite get_whisper_eq. destruct (find_whisper _ _); cbn [snd].
    + eapply same_store_trans; apply load_log_same_store.
    + apply load_log_same_store.
  - destruct (create_whisper_store r σ)
      as [(w & _ & Hid & Ht & Hw & Hr)|[_ Hs]];
      [|eapply kept_same_store; [exact Hs|exact H]].
    destruct H as ((H1 & H2 & H3 & H4) & H5).
    unfold kept_by_calls, well_formed, topics_valid.
    rewrite Hw, Hr. cbn [records]. rewrite map_app. cbn [map].
    rewrite Hid. repeat split.
    + now apply NoDup_snoc_max.
    + exact H2.
    + apply Forall_app. split; [exact H3|]. constructor; [|constructor].
      rewrite Hid. now apply max_default_positive, Forall_map.
    + exact H4.
    + apply Forall_app. split; [exact H5|]. now repeat constructor.
  - eapply kept_same_store; [|exact H].
    rewrite get_replies_eq. apply load_log_same_store.
  - destruct (create_reply_store id r σ)
      as [(rep & w0 & _ & _ & Hid & _ & Hr & Hw)|[_ Hs]];
      [|eapply kept_same_store; [exact Hs|exact H]].
    destruct H as ((H1 & H2 & H3 & H4) & H5).
    unfold kept_by_calls, well_formed, topics_valid.
    rewrite Hw, Hr. cbn [records]. rewrite map_app. cbn [map].
    rewrite Hid.
    assert (Hposts :
      NoDup (map Whisper.id
               (records (if whispers_writable σ
                  then Stored (assign_replies_count id
                     (count_replies id (records (replies_json σ) ++ [rep]))
                     (records (whispers_json σ)))
                  else whispers_json σ))) /\
      Forall (fun w => 1 <= Whisper.id w)
        (records (if whispers_writable σ
                  then Stored (assign_replies_count id
                     (count_replies id (records (replies_json σ) ++ [rep]))
                     (records (whispers_json σ)))
                  else whispers_json σ)) /\
      Forall (fun w => in_topics (Whisper.get_topic w) = true)
        (records (if whispers_writable σ
                  then Stored (assign_replies_count id
                     (count_replies id (records (replies_json σ) ++ [rep]))
                     (records (whispers_json σ)))
                  else whispers_json σ))).
    { destruct (whispers_writable σ); cbn [records]; [|now repeat split].
      rewrite assign_replies_count_ids.
      repeat split; [exact H1| |];
        now apply assign_replies_count_Forall. }
    destruct Hposts as (P1 & P2 & P3). repeat split; try assumption.
    + now apply NoDup_snoc_max.
    + apply Forall_app. split; [exact H4|]. constructor; [|constructor].
      rewrite Hid. now apply max_default_positive, Forall_map.
  - exact H.
Qed.

(** X14.  Whatever the calls and their order, the store keeps distinct
    and positive ids in both collections and a topic of [ALL_TOPICS] on
    every post that has one. *)
Theorem calls_keep_store_well_formed (cs : list call) σ :
  well_formed σ ->
  topics_valid σ ->
  well_formed (after_all cs σ) /\ topics_valid (after_all cs σ).
Proof.
  intros H1 H2. assert (H : kept_by_calls σ) by now split. clear H1 H2.
  revert σ H. unfold after_all.
  induction cs as [|c cs IH]; intros σ H; [exact H|].
  simpl. apply IH. now apply after_keeps.
Qed.

(** ** No write without a timestamp *)

Lemma stamped_or_same_refl σ : stamped_or_same σ σ.
Proof. unfold stamped_or_same. auto 6. Qed.


Lemma stamped_or_same_load_log A (f : file A) σ :
  stamped_or_same σ (load_log f σ).
Proof.
  destruct (load_log_clock f σ) as [Hc Ht].
  split; [exact Hc|]. split; [lia|]. left.
  now rewrite load_log_whispers, load_log_replies, load_log_LAST.
Qed.

Lemma stamped_or_same_tick σ : stamped_or_same σ (tick σ).
Proof. split; [reflexivity|]. split; [simpl; lia|]. left. now repeat split. Qed.

Lemma stamped_or_same_write_stdout line σ :
  stamped_or_same σ (write_stdout line σ).
Proof. split; [reflexivity|]. split; [simpl; lia|]. left. now repeat split. Qed.

Lemma stamped_or_same_save_log A (f : file A) data σ :
  stamped_or_same σ (save_log f data σ).
Proof.
  unfold save_log. destruct (writable f σ);
    [|apply stamped_or_same_write_stdout].
  split; [now destruct f|]. split; [destruct f; simpl; lia|].
  right. exists (ticks σ). destruct f; simpl; split; (lia || reflexivity).
Qed.

Create HintDb stamps.
#[local] Hint Resolve stamped_or_same_refl stamped_or_same_load_log
  stamped_or_same_tick stamped_or_same_write_stdout
  stamped_or_same_save_log : stamps.






(** ** What a sweep can and cannot do *)

(** X19.  A sweep only removes.  Whatever the timestamps and whether
    the files can be written or not, the posts and the replies stored
    after [cleanup_old_whispers], and after the [get_whispers] that
    starts with it, are those stored before with some of them left out,
    in the same order. *)
Theorem sweep_only_removes (r : request) σ :
  let removes σ' :=
    exists p q,
      records (whispers_json σ') = filter p (records (whispers_json σ)) /\
      records (replies_json σ') = filter q (records (replies_json σ)) in
  removes (snd (cleanup_old_whispers σ)) /\
  removes (snd (get_whispers r σ)).
Proof.
  cbv zeta.
  destruct (cleanup_old_whispers_filters σ) as (p & q & Hp & Hq).
  split; exists p, q; [now split|].
  rewrite get_whispers_eq. cbn [snd].
  now rewrite load_log_whispers, load_log_replies.
Qed.

(** X20.  The sweep does not look at what [save_data] answers.  When
    replies.json cannot be written and whispers.json can, it still
    answers [True] and drops the expired posts, and every reply stays,
    those of the dropped posts included. *)
Theorem cleanup_old_whispers_ignores_failed_save σ :
  Forall well_stamped (records (whispers_json σ)) ->
  whispers_writable σ = true ->
  replies_writable σ = false ->
  let whispers := records (whispers_json σ) in
  let cutoff := clock σ (ticks σ) - timedelta_hours 48 in
  let σ' := snd (cleanup_old_whispers σ) in
  fst (cleanup_old_whispers σ) = Ok true /\
  records (whispers_json σ') = keep cutoff whispers /\
  replies_json σ' = replies_json σ /\
  (forall w, In w (expire cutoff whispers) ->
     ~ In w (records (whispers_json σ')) /\
     forall r, In r (records (replies_json σ)) ->
       Reply.whisper_id r = Whisper.id w ->
       In r (records (replies_json σ'))).
Proof.
  intros H Hw Hr whispers cutoff σ'.
  destruct (cleanup_old_whispers_records σ H) as [Ews _].
  fold whispers cutoff σ' in Ews. rewrite Hw in Ews.
  assert (Ers : replies_json σ' = replies_json σ).
  { subst σ'. rewrite (@cleanup_old_whispers_eq _ σ H).
    fold whispers cutoff. destruct (expire cutoff whispers); cbn [snd].
    - cbn [tick replies_json]. apply load_log_replies.
    - rewrite save_log_replies_json_W, save_log_replies_json_R.
      rewrite load_log_replies_writable. cbn [tick replies_writable].
      rewrite load_log_replies_writable, Hr, load_log_replies.
      cbn [tick replies_json]. apply load_log_replies. }
  split.
  { subst σ'. rewrite (@cleanup_old_whispers_eq _ σ H).
    now destruct (expire _ _). }
  split; [exact Ews|]. split; [exact Ers|].
  intros w Hex. split.
  - rewrite Ews. unfold keep. unfold expire in Hex.
    rewrite filter_In. apply filter_In in Hex as [_ Hex].
    intros [_ Hk]. rewrite Hk in Hex. discriminate.
  - intros r Hin _. now rewrite Ers.
Qed.


(** ** After a sweep *)

Lemma find_whisper_none id ws :
  ~ In id (map Whisper.id ws) -> find_whisper id ws = None.
Proof.
  unfold find_whisper. intros H.
  destruct (find _ ws) as [w|] eqn:E; [|reflexivity].
  apply find_some in E as [Hin Heq]. apply Z.eqb_eq in Heq.
  exfalso. apply H. rewrite <- Heq. now apply in_map.
Qed.

Lemma NoDup_ids_inj ws (w x : whisper) :
  NoDup (map Whisper.id ws) ->
  In w ws -> In x ws -> Whisper.id w = Whisper.id x -> w = x.
Proof.
  induction ws as [|y ys IH]; simpl; [tauto|].
  intros Hnd Hw Hx E. inversion Hnd as [|? ? Hny Hnd']; subst.
  destruct Hw as [->|Hw], Hx as [->|Hx].
  - reflexivity.
  - exfalso. apply Hny. rewrite E. now apply in_map.
  - exfalso. apply Hny. rewrite <- E. now apply in_map.
  - now apply IH.
Qed.

(** X16.  What a sweep expires is gone for the readers.  With both files
    writable and distinct post ids, after the sweep a fetch of an
    expired post answers 404 and the list of its replies is empty. *)
Theorem expired_post_is_gone σ w :
  Forall well_stamped (records (whispers_json σ)) ->
  whispers_writable σ = true ->
  replies_writable σ = true ->
  NoDup (map Whisper.id (records (whispers_json σ))) ->
  In w (expire (clock σ (ticks σ) - timedelta_hours 48)
          (records (whispers_json σ))) ->
  let σ' := snd (cleanup_old_whispers σ) in
  fst (get_whisper (Whisper.id w) σ') = Ok (404, Failure "Whisper not found") /\
  fst (get_replies (Whisper.id w) σ') = Ok (200, Replies []).
Proof.
  intros H Hw Hr Hnd Hex σ'.
  destruct (cleanup_old_whispers_records σ H) as [Ews Ers].
  fold σ' in Ews, Ers. rewrite Hw in Ews. rewrite Hr in Ers.
  rewrite get_whisper_eq, get_replies_eq, Ews, Ers. split.
  - rewrite find_whisper_none; [reflexivity|].
    intros Hin. apply in_map_iff in Hin as (x & E & Hx).
    unfold keep in Hx. unfold expire in Hex.
    apply filter_In in Hx as [Hx Hkept].
    apply filter_In in Hex as [Hex Hexp].
    rewrite (NoDup_ids_inj _ _ _ Hnd Hx Hex E) in Hkept.
    rewrite Hkept in Hexp. discriminate.
  - cbn [fst]. do 3 f_equal.
    assert (E : filter (fun r => Reply.whisper_id r =? Whisper.id w)
                  (surviving
                     (expire (clock σ (ticks σ) - timedelta_hours 48)
                        (records (whispers_json σ)))
                     (records (replies_json σ))) = []).
    { destruct (filter _ _) as [|r rs] eqn:E; [reflexivity|].
      assert (Hin : In r (r :: rs)) by now left.
      rewrite <- E in Hin. apply filter_In in Hin as [Hin Heq].
      apply surviving_spec in Hin as [_ Hno]. apply Z.eqb_eq in Heq.
      exfalso. apply Hno. rewrite Heq. now apply in_map. }
    now rewrite E.
Qed.

(** ** Unreadable files *)

(** X17.  [create_whisper] does not tell a file it cannot read from an
    empty one: when whispers.json is missing or is not JSON, a created
    post gets the id 1 and the file is rewritten to hold that post
    alone. *)
Theorem create_whisper_over_unreadable_file r σ w σ' :
  whispers_json σ = Absent \/ whispers_json σ = Corrupt ->
  create_whisper r σ = (Ok (200, WhisperData w), σ') ->
  Whisper.id w = 1 /\ whispers_json σ' = Stored [w].
Proof.
  intros Hbad H.
  destruct (create_whisper_store r σ)
    as [(w' & E & Hid & _ & Hw & _)|[E _]];
    rewrite H in *; cbn [fst snd] in *; [|discriminate].
  injection E as <-.
  assert (Hrec : records (whispers_json σ) = [])
    by (destruct Hbad as [-> | ->]; reflexivity).
  rewrite Hrec in Hid, Hw. split; [exact Hid|exact Hw].
Qed.

End More.

(** ** Start-up, proved *)

(** X18.  [init_data] creates an empty list in each missing file and
    touches nothing else: a file that exists keeps what it holds, be it
    JSON or not, and the timestamp does not move.  It raises exactly
    when a missing file cannot be created. *)
Theorem init_data_creates_missing_files σ :
  let σ' := snd (init_data σ) in
  (whispers_json σ <> Absent -> whispers_json σ' = whispers_json σ) /\
  (replies_json σ <> Absent -> replies_json σ' = replies_json σ) /\
  (fst (init_data σ) = Ok tt ->
   (whispers_json σ = Absent -> whispers_json σ' = Stored []) /\
   (replies_json σ = Absent -> replies_json σ' = Stored [])) /\
  (fst (init_data σ) = Ok tt <->
   (whispers_json σ = Absent -> whispers_writable σ = true) /\
   (replies_json σ = Absent -> replies_writable σ = true)) /\
  LAST_UPDATE_TIME σ' = LAST_UPDATE_TIME σ /\
  saves σ' = saves σ /\
  stdout σ' = stdout σ.
Proof.
  destruct σ as [ws rs ww rw last clk n out sv].
  unfold init_data, bind, file_exists, write_text_empty, ret.
  destruct ws as [| |ws], rs as [| |rs], ww, rw; cbn;
    repeat split; intros; try tauto; try congruence;
    try (match goal with H : _ /\ _ |- _ => destruct H as [H1 H2] end;
         try (specialize (H1 eq_refl)); try (specialize (H2 eq_refl));
         congruence).
Qed.

(** ** More of the program on concrete requests *)

Lemma cleanup_old_whispers_cascades_witness :
  (Forall well_stamped (records (whispers_json Scenario.two_posts)) /\
   whispers_writable Scenario.two_posts = true /\
   replies_writable Scenario.two_posts = true) /\
  records (replies_json (snd (cleanup_old_whispers Scenario.two_posts))) =
    [Scenario.r1; Scenario.r3] /\
  replies_attached (snd (cleanup_old_whispers Scenario.two_posts)).
Proof.
  assert (H : Forall well_stamped (records (whispers_json Scenario.two_posts)))
    by (repeat constructor; eexists; reflexivity).
  split; [repeat split; exact H|]. split; [reflexivity|].
  apply (proj1 (proj2 (@cleanup_old_whispers_cascades Iso8601.lib
                         Scenario.two_posts H eq_refl eq_refl))).
  intros r [<-|[<-|[<-|[<-|[]]]]]; simpl; tauto.
Defined.

Lemma get_whispers_lists_no_expired_witness :
  (Forall well_stamped (records (whispers_json Scenario.two_posts)) /\
   whispers_writable Scenario.two_posts = true) /\
  fst (get_whispers (Scenario.GET []) Scenario.two_posts) =
    Ok (200, Whispers [Scenario.hello] "2024-01-02T03:04:09.123456+00:00" "all") /\
  Forall
    (fun w =>
       created_after
         (clock Scenario.two_posts (ticks Scenario.two_posts) -
          timedelta_hours 48) w = true)
    [Scenario.hello].
Proof.
  assert (H : Forall well_stamped (records (whispers_json Scenario.two_posts)))
    by (repeat constructor; eexists; reflexivity).
  split; [split; [exact H|reflexivity]|]. split; [reflexivity|].
  apply (@get_whispers_lists_no_expired Iso8601.lib (Scenario.GET [])
           Scenario.two_posts [Scenario.hello]
           "2024-01-02T03:04:09.123456+00:00" "all"
           (snd (get_whispers (Scenario.GET []) Scenario.two_posts)) H
           eq_refl).
  reflexivity.
Defined.

Lemma create_whisper_coerces_topic_witness :
  exists d t,
    body (Scenario.POST [("content", JStr "x"); ("topic", JInt 7)]) =
      Some (JDict d) /\
    Whisper.topic
      (Whisper.mk 1 "x" (Some "random") (JBool false) 0
         "2024-01-02T03:04:05.123456+00:00") = Some t /\
    in_topics t = true /\
    (forall s, assoc "topic" d = Some (JStr s) -> in_topics s = true -> t = s) /\
    ((forall s, assoc "topic" d = Some (JStr s) -> in_topics s = false) ->
     t = "random").
Proof.
  apply (@create_whisper_coerces_topic Iso8601.lib
           (Scenario.POST [("content", JStr "x"); ("topic", JInt 7)])
           Scenario.fresh _
           (snd (create_whisper
                   (Scenario.POST [("content", JStr "x"); ("topic", JInt 7)])
                   Scenario.fresh))).
  reflexivity.
Defined.


Lemma create_reply_effect_witness :
  create_reply 1 (Scenario.POST [("content", JStr " hi ")]) Scenario.two_posts =
    (Ok (200,
         ReplyData (Reply.mk 5 1 "hi" "2024-01-02T03:04:07.123456+00:00")),
     snd (create_reply 1 (Scenario.POST [("content", JStr " hi ")])
            Scenario.two_posts)) /\
  whispers_json
    (snd (create_reply 1 (Scenario.POST [("content", JStr " hi ")])
            Scenario.two_posts)) =
    Stored [Scenario.old; Whisper.set_replies_count 3 Scenario.hello] /\
  In 1 (map Whisper.id (records (whispers_json Scenario.two_posts))).
Proof.
  split; [reflexivity|]. split; [reflexivity|].
  apply (@create_reply_effect Iso8601.lib 1
           (Scenario.POST [("content", JStr " hi ")]) Scenario.two_posts
           (Reply.mk 5 1 "hi" "2024-01-02T03:04:07.123456+00:00")
           (snd (create_reply 1 (Scenario.POST [("content", JStr " hi ")])
                   Scenario.two_posts))).
  reflexivity.
Defined.

Lemma check_updates_flag_witness :
  check_updates
    (Scenario.GET [("last_update", "2024-01-02T03:04:06.123456Z")])
    Scenario.one_post =
    (Ok (200, Updates false "2024-01-02T03:04:06.123456+00:00" 1 "all"),
     Scenario.one_post) /\
  exists s t,
    args_get "last_update"
      (args (Scenario.GET [("last_update", "2024-01-02T03:04:06.123456Z")])) =
      Some s /\
    s <> "" /\
    fromisoformat (replace_Z s) = Some (Aware t) /\
    LAST_UPDATE_TIME Scenario.one_post <= t.
Proof.
  split; [reflexivity|].
  apply (proj1 (@check_updates_flag Iso8601.lib
                  (Scenario.GET
                     [("last_update", "2024-01-02T03:04:06.123456Z")])
                  Scenario.one_post false
                  "2024-01-02T03:04:06.123456+00:00" 1 "all"
                  Scenario.one_post eq_refl)).
  reflexivity.
Defined.

Lemma create_whisper_makes_stale_witness :
  create_whisper (Scenario.POST [("content", JStr "second")])
    Scenario.one_post =
    (Ok (200,
         WhisperData
           (Whisper.mk 2 "second" (Some "random") (JBool false) 0
              "2024-01-02T03:04:07.123456+00:00")),
     snd (create_whisper (Scenario.POST [("content", JStr "second")])
            Scenario.one_post)) /\
  LAST_UPDATE_TIME
    (snd (create_whisper (Scenario.POST [("content", JStr "second")])
            Scenario.one_post)) = Scenario.clock0 3 /\
  reports
    (check_updates
       (Scenario.GET
          [("last_update", "2024-01-02T03:04:06.123456+00:00");
           ("topic", "music")])
       (snd (create_whisper (Scenario.POST [("content", JStr "second")])
               Scenario.one_post)))
    true.
Proof.
  split; [reflexivity|].
  apply (@create_whisper_makes_stale Iso8601.lib
           (Scenario.POST [("content", JStr "second")]) Scenario.one_post
           (Whisper.mk 2 "second" (Some "random") (JBool false) 0
              "2024-01-02T03:04:07.123456+00:00")
           (snd (create_whisper (Scenario.POST [("content", JStr "second")])
                   Scenario.one_post))
           (Scenario.GET
              [("last_update", "2024-01-02T03:04:06.123456+00:00");
               ("topic", "music")])
           "2024-01-02T03:04:06.123456+00:00" (Scenario.clock0 1)).
  - reflexivity.
  - reflexivity.
  - reflexivity.
  - reflexivity.
  - left. reflexivity.
Defined.

Lemma check_updates_agrees_with_listing_witness :
  get_whispers (Scenario.GET [("topic", "music")]) Scenario.one_post =
    (Ok (200,
         Whispers [Scenario.hello] "2024-01-02T03:04:06.123456+00:00" "music"),
     snd (get_whispers (Scenario.GET [("topic", "music")])
            Scenario.one_post)) /\
  fst (check_updates
         (Scenario.GET
            [("last_update", "2024-01-02T03:04:06.123456+00:00");
             ("topic", "music")])
         (snd (get_whispers (Scenario.GET [("topic", "music")])
                 Scenario.one_post))) =
    Ok (200, Updates false "2024-01-02T03:04:06.123456+00:00" 1 "music").
Proof.
  assert (E : get_whispers (Scenario.GET [("topic", "music")])
                 Scenario.one_post =
               (Ok (200,
                    Whispers [Scenario.hello]
                      "2024-01-02T03:04:06.123456+00:00" "music"),
                snd (get_whispers (Scenario.GET [("topic", "music")])
                       Scenario.one_post)))
    by reflexivity.
  split; [exact E|].
  apply (proj2 (@check_updates_agrees_with_listing Iso8601.lib
                  (Scenario.GET [("topic", "music")]) Scenario.one_post
                  [Scenario.hello] "2024-01-02T03:04:06.123456+00:00"
                  "music"
                  (snd (get_whispers (Scenario.GET [("topic", "music")])
                          Scenario.one_post))
                  E (or_introl eq_refl))
           (Scenario.GET
              [("last_update", "2024-01-02T03:04:06.123456+00:00");
               ("topic", "music")])).
  - reflexivity.
  - discriminate.
  - reflexivity.
Defined.

Lemma calls_keep_store_well_formed_witness :
  (well_formed Scenario.fresh /\ topics_valid Scenario.fresh) /\
  well_formed
    (after_all
       [POST_whispers (Scenario.POST [("content", JStr "a")]);
        POST_replies 1 (Scenario.POST [("content", JStr "b")]);
        Tick;
        POST_whispers
          (Scenario.POST [("content", JStr "c"); ("topic", JStr "nope")]);
        GET_whispers (Scenario.GET [("topic", "bogus")])]
       Scenario.fresh) /\
  topics_valid
    (after_all
       [POST_whispers (Scenario.POST [("content", JStr "a")]);
        POST_replies 1 (Scenario.POST [("content", JStr "b")]);
        Tick;
        POST_whispers
          (Scenario.POST [("content", JStr "c"); ("topic", JStr "nope")]);
        GET_whispers (Scenario.GET [("topic", "bogus")])]
       Scenario.fresh).
Proof.
  assert (H1 : well_formed Scenario.fresh) by (repeat split; constructor).
  assert (H2 : topics_valid Scenario.fresh) by constructor.
  split; [now split|].
  exact (@calls_keep_store_well_formed Iso8601.lib _ Scenario.fresh H1 H2).
Defined.

Lemma expired_post_is_gone_witness :
  (Forall well_stamped (records (whispers_json Scenario.two_posts)) /\
   NoDup (map Whisper.id (records (whispers_json Scenario.two_posts))) /\
   In Scenario.old
     (expire
        (clock Scenario.two_posts (ticks Scenario.two_posts) -
         timedelta_hours 48)
        (records (whispers_json Scenario.two_posts)))) /\
  fst (get_whisper 2 (snd (cleanup_old_whispers Scenario.two_posts))) =
    Ok (404, Failure "Whisper not found") /\
  fst (get_replies 2 (snd (cleanup_old_whispers Scenario.two_posts))) =
    Ok (200, Replies []).
Proof.
  assert (H : Forall well_stamped (records (whispers_json Scenario.two_posts)))
    by (repeat constructor; eexists; reflexivity).
  assert (Hnd : NoDup (map Whisper.id
                         (records (whispers_json Scenario.two_posts)))).
  { repeat constructor; simpl; intuition discriminate. }
  assert (Hex : In Scenario.old
                  (expire
                     (clock Scenario.two_posts (ticks Scenario.two_posts) -
                      timedelta_hours 48)
                     (records (whispers_json Scenario.two_posts))))
    by (left; reflexivity).
  split; [now repeat split|].
  exact (@expired_post_is_gone Iso8601.lib Scenario.two_posts Scenario.old
           H eq_refl eq_refl Hnd Hex).
Defined.

Lemma create_whisper_over_unreadable_file_witness :
  whispers_json Scenario.unreadable = Corrupt /\
  whispers_json
    (snd (create_whisper (Scenario.POST [("content", JStr "x")])
            Scenario.unreadable)) =
    Stored
      [Whisper.mk 1 "x" (Some "random") (JBool false) 0
         "2024-01-02T03:04:05.123456+00:00"].
Proof.
  split; [reflexivity|].
  apply (@create_whisper_over_unreadable_file Iso8601.lib
           (Scenario.POST [("content", JStr "x")]) Scenario.unreadable
           (Whisper.mk 1 "x" (Some "random") (JBool false) 0
              "2024-01-02T03:04:05.123456+00:00")
           (snd (create_whisper (Scenario.POST [("content", JStr "x")])
                   Scenario.unreadable))).
  - right. reflexivity.
  - reflexivity.
Defined.

Lemma cleanup_old_whispers_ignores_failed_save_witness :
  (Forall well_stamped
     (records
        (whispers_json
           (mkWorld (Stored [Scenario.old; Scenario.hello])
              (Stored [Scenario.r1; Scenario.r2]) true false
              (Scenario.clock0 1) Scenario.clock0 2 [] []))) /\
   In Scenario.old
     (expire (Scenario.clock0 2 - timedelta_hours 48)
        [Scenario.old; Scenario.hello])) /\
  ~ In Scenario.old
      (records
         (whispers_json
            (snd (cleanup_old_whispers
                    (mkWorld (Stored [Scenario.old; Scenario.hello])
                       (Stored [Scenario.r1; Scenario.r2]) true false
                       (Scenario.clock0 1) Scenario.clock0 2 [] []))))) /\
  In Scenario.r2
    (records
       (replies_json
          (snd (cleanup_old_whispers
                  (mkWorld (Stored [Scenario.old; Scenario.hello])
                     (Stored [Scenario.r1; Scenario.r2]) true false
                     (Scenario.clock0 1) Scenario.clock0 2 [] []))))).
Proof.
  assert (H : Forall well_stamped [Scenario.old; Scenario.hello])
    by (repeat constructor; eexists; reflexivity).
  assert (Hex : In Scenario.old
                  (expire (Scenario.clock0 2 - timedelta_hours 48)
                     [Scenario.old; Scenario.hello]))
    by (left; reflexivity).
  split; [split; [exact H|exact Hex]|].
  destruct (@cleanup_old_whispers_ignores_failed_save Iso8601.lib
              (mkWorld (Stored [Scenario.old; Scenario.hello])
                 (Stored [Scenario.r1; Scenario.r2]) true false
                 (Scenario.clock0 1) Scenario.clock0 2 [] [])
              H eq_refl eq_refl) as (_ & _ & _ & Hgone).
  destruct (Hgone Scenario.old Hex) as [Hno Hstay].
  split; [exact Hno|].
  apply (Hstay Scenario.r2); [right; left; reflexivity|reflexivity].
Defined.

